(** * PyTilengine: the Python binding of the Tilengine retro graphics engine

    A shallow embedding of [src/tilengine.py].  The binding forwards every
    call to the native shared library through [ctypes]; the embedding keeps
    that boundary explicit: a binding method is a program that performs
    native calls ([Call]) and reads their replies, threading the Python-side
    object ([self]) as explicit state and Python exceptions as a result
    type.  What the native library answers is supplied by a handler, so the
    facts proved about the binding hold for every native library. *)

From Stdlib Require Import ZArith String Ascii List Lia Bool.
From Stdlib Require Import Floats.SpecFloat.
From stdpp Require Import base option list gmap strings.
Import ListNotations.

Local Open Scope string_scope.
Local Open Scope Z_scope.
Local Open Scope list_scope.

(** ** Python values that cross the binding *)

(** The Python values the binding inspects or hands to [ctypes].  Wrapper
    objects (Tilemap, Bitmap, Spriteset, ...) are marshalled through their
    [_as_parameter_] handle, an integer address; a [ctypes] structure of
    type [Tile] travels as [PyTile]; strings are ASCII, so that
    [bytes.decode] and [str.encode] keep the characters.  [PyCallback] is a [CFUNCTYPE] object
    wrapping the user's Python function, identified by a number. *)
Inductive PyVal : Type :=
| PyNone
| PyBool (b : bool)
| PyInt (z : Z)
| PyFloat (f : spec_float)
| PyStr (s : string)
| PyBytes (s : string)
| PyTile (index flags : Z)
| PyCallback (id : nat).

(** Exceptions the modelled code can raise; [ArgumentError] is the one of
    [ctypes] for an argument it cannot convert to the declared type. *)
Inductive PyExn : Type :=
| TilengineException (value : string)
| ValueError
| OverflowError
| TypeError
| AttributeError
| ArgumentError
| NameError.

(** Outcome of a Python call: a normal return or a raised exception. *)
Inductive Res (A : Type) : Type :=
| Normal (a : A)
| Raised (e : PyExn).
Arguments Normal {A} a.
Arguments Raised {A} e.

(** ** Constants ([class Flags], [class Error]) *)

Module Flags.
Definition FLIPX : Z := Z.shiftl 1 15.
Definition FLIPY : Z := Z.shiftl 1 14.
Definition ROTATE : Z := Z.shiftl 1 13.
Definition PRIORITY : Z := Z.shiftl 1 12.
Definition MASKED : Z := Z.shiftl 1 11.
Definition TILESET : Z := Z.shiftl 7 8.
End Flags.

Module Error.
Definition OK : Z := 0.
Definition OUT_OF_MEMORY : Z := 1.
Definition IDX_LAYER : Z := 2.
Definition IDX_SPRITE : Z := 3.
Definition IDX_ANIMATION : Z := 4.
Definition IDX_PICTURE : Z := 5.
Definition REF_TILESET : Z := 6.
Definition REF_TILEMAP : Z := 7.
Definition REF_SPRITESET : Z := 8.
Definition REF_PALETTE : Z := 9.
Definition REF_SEQUENCE : Z := 10.
Definition REF_SEQPACK : Z := 11.
Definition REF_BITMAP : Z := 12.
Definition NULL_POINTER : Z := 13.
Definition FILE_NOT_FOUND : Z := 14.
Definition WRONG_FORMAT : Z := 15.
Definition WRONG_SIZE : Z := 16.
Definition UNSUPPORTED : Z := 17.
Definition REF_LIST : Z := 18.
End Error.

(** ** Python built-ins used by the binding *)

(** [Py_ISSPACE], the white space [int] skips around an ASCII literal:
    tab, LF, VT, FF, CR and space. *)
Definition Py_ISSPACE (c : ascii) : bool :=
  let n := Z.of_nat (nat_of_ascii c) in
  ((9 <=? n) && (n <=? 13)) || (n =? 32).

(** Value of a digit character in bases up to 36, as [int(s, base)] reads
    it: ['0'-'9'], ['a'-'z'] and ['A'-'Z']. *)
Definition digit_value (c : ascii) : option Z :=
  let n := Z.of_nat (nat_of_ascii c) in
  if (48 <=? n) && (n <=? 57) then Some (n - 48)
  else if (97 <=? n) && (n <=? 122) then Some (n - 97 + 10)
  else if (65 <=? n) && (n <=? 90) then Some (n - 65 + 10)
  else None.

Definition digit_in_base (base : Z) (c : ascii) : option Z :=
  match digit_value c with
  | Some d => if d <? base then Some d else None
  | None => None
  end.

(** The digit run of an integer literal: digits of the base, single
    underscores allowed between two digits only.  [prev_us] tells whether
    the previous character was an underscore; [seen] whether a digit has
    been read.  [None] is Python's [ValueError]. *)
Fixpoint parse_digits (base : Z) (acc : Z) (prev_us seen : bool) (s : string)
  : option Z :=
  match s with
  | EmptyString => if prev_us || negb seen then None else Some acc
  | String c rest =>
      if Ascii.eqb c "_"
      then (if prev_us || negb seen then None
            else parse_digits base acc true seen rest)
      else match digit_in_base base c with
           | Some d => parse_digits base (acc * base + d) false true rest
           | None => None
           end
  end.

Fixpoint lstrip (s : string) : string :=
  match s with
  | String c rest => if Py_ISSPACE c then lstrip rest else s
  | EmptyString => EmptyString
  end.

Fixpoint rstrip (s : string) : string :=
  match s with
  | EmptyString => EmptyString
  | String c rest =>
      match rstrip rest with
      | EmptyString => if Py_ISSPACE c then EmptyString else String c EmptyString
      | r => String c r
      end
  end.

(** Whether [x] is the letter of the literal prefix of [base]: [0x] in
    base 16, [0o] in base 8, [0b] in base 2, in either case. *)
Definition is_base_prefix (base : Z) (x : ascii) : bool :=
  ((base =? 16) && (Ascii.eqb x "x" || Ascii.eqb x "X"))
  || ((base =? 8) && (Ascii.eqb x "o" || Ascii.eqb x "O"))
  || ((base =? 2) && (Ascii.eqb x "b" || Ascii.eqb x "B")).

(** The part of a literal after its sign: the optional prefix of the base,
    which one underscore may follow, then the digit run, which holds a
    digit and does not start with an underscore. *)
Definition parse_unsigned (base : Z) (s : string) : option Z :=
  match s with
  | String "0" (String x rest) =>
      if is_base_prefix base x
      then match rest with
           | String "_" rest' => parse_digits base 0 false false rest'
           | _ => parse_digits base 0 false false rest
           end
      else parse_digits base 0 false false s
  | _ => parse_digits base 0 false false s
  end.

(** [int(s, base)] on an ASCII string: surrounding white space is dropped,
    then an optional sign, then the unsigned literal.  [None] stands for
    [ValueError]. *)
Definition int_of_str (base : Z) (s : string) : option Z :=
  match rstrip (lstrip s) with
  | String "+" rest => parse_unsigned base rest
  | String "-" rest => option_map Z.opp (parse_unsigned base rest)
  | t => parse_unsigned base t
  end.

(** Python's slice [s[a:b]] for [0 <= a <= b]: it silently stops at the
    end of a shorter string. *)
Definition slice (a b : nat) (s : string) : string :=
  String.substring a (b - a) s.

(** ** [class Color] *)

Record Color : Type := mkColor { r : PyVal; g : PyVal; b : PyVal }.

(** [Color.fromstring]: creates a color from a css-style [#rrggbb] string. *)
Definition Color_fromstring (s : string) : Res Color :=
  match int_of_str 16 (slice 1 3 s) with
  | None => Raised ValueError
  | Some r =>
      match int_of_str 16 (slice 3 5 s) with
      | None => Raised ValueError
      | Some g =>
          match int_of_str 16 (slice 5 7 s) with
          | None => Raised ValueError
          | Some b => Normal (mkColor (PyInt r) (PyInt g) (PyInt b))
          end
      end
  end.

(** ** The boundary with the native library *)

(** The native functions ([_tln.TLN_...]) the modelled methods call. *)
Inductive NativeFn : Type :=
| TLN_GetLastError | TLN_GetErrorString
| TLN_Init | TLN_GetVersion
| TLN_SetBGColor | TLN_SetBGColorFromTilemap | TLN_SetBGBitmap
| TLN_SetRasterCallback | TLN_SetFrameCallback | TLN_UpdateFrame
| TLN_SetTilemapTileset2 | TLN_GetTilemapTile | TLN_SetTilemapTile
| TLN_SetPaletteColor
| TLN_SetLayer | TLN_SetLayerTilemap | TLN_SetLayerBitmap
| TLN_SetLayerPalette | TLN_SetLayerPosition
| TLN_GetLayerWidth | TLN_GetLayerHeight
| TLN_ConfigSprite | TLN_SetSpriteSet | TLN_SetSpritePicture
| TLN_FindSpritesetSprite | TLN_SetFirstSprite | TLN_SetNextSprite
| TLN_SetWorldPosition | TLN_SetSpritesMaskRegion
| TLN_GetLayerPalette | TLN_GetSpritePalette
| TLN_CreatePalette | TLN_LoadPalette | TLN_ClonePalette | TLN_DeletePalette
| TLN_SetWindowTitle | TLN_CreateWindow | TLN_CreateWindowThread
| TLN_GetWindowWidth | TLN_GetWindowHeight | TLN_DrawFrame | TLN_ProcessWindow
| TLN_GetSequencePackCount | TLN_GetSequence | TLN_GetSequenceInfo
| TLN_FindSequence | TLN_AddSequenceToPack | TLN_DeleteSequence.

(** What a foreign call hands back to Python: the value [ctypes] builds
    from the declared [restype], and the contents the callee left in the
    structure passed by reference, if it wrote one. *)
Record Reply : Type := mkReply { ret : PyVal; written : option PyVal }.

(** A program of the binding: it ends with a value, calls the native
    library and continues with the reply, or prints a line.  A foreign
    call can itself raise (an argument [ctypes] refuses), hence [Res]. *)
Inductive Prog (A : Type) : Type :=
| Done (a : A)
| Call (f : NativeFn) (args : list PyVal) (k : Res Reply -> Prog A)
| Print (fmt : string) (args : list PyVal) (k : Prog A).
Arguments Done {A} a.
Arguments Call {A} f args k.
Arguments Print {A} fmt args k.

(** Python code acting on a mutable object of type [S] (the method's
    [self], or a structure passed by reference): it ends normally or with
    an exception, and hands back the object as the code left it. *)
Definition M (S A : Type) : Type := S -> Prog (Res A * S).

Fixpoint prog_bind {A B : Type} (p : Prog A) (f : A -> Prog B) : Prog B :=
  match p with
  | Done a => f a
  | Call fn args k => Call fn args (fun r => prog_bind (k r) f)
  | Print fmt args k => Print fmt args (prog_bind k f)
  end.

Definition mret {S A : Type} (a : A) : M S A := fun s => Done (Normal a, s).

Definition raise {S A : Type} (e : PyExn) : M S A := fun s => Done (Raised e, s).

Definition mbind {S A B : Type} (m : M S A) (f : A -> M S B) : M S B :=
  fun s => prog_bind (m s)
    (fun '(ra, s') => match ra with
                      | Normal a => f a s'
                      | Raised e => Done (Raised e, s')
                      end).

Definition get {S : Type} : M S S := fun s => Done (Normal s, s).

Definition put {S : Type} (s : S) : M S unit := fun _ => Done (Normal tt, s).

(** [_tln.f(args)]: the foreign call; an exception of the call propagates. *)
Definition native {S : Type} (f : NativeFn) (args : list PyVal) : M S Reply :=
  fun s => Call f args (fun r => Done (r, s)).

Definition print {S : Type} (fmt : string) (args : list PyVal) : M S unit :=
  fun s => Print fmt args (Done (Normal tt, s)).

Declare Scope py_scope.
Delimit Scope py_scope with py.
Notation "x <- c1 ;; c2" := (mbind c1 (fun x => c2))
  (at level 100, c1 at next level, right associativity) : py_scope.
Notation "c1 ;; c2" := (mbind c1 (fun _ => c2))
  (at level 100, right associativity) : py_scope.
Local Open Scope py_scope.

(** *** Running a program against a native library *)

(** One native call, as a record of the trace. *)
Inductive Event : Type :=
| Called (f : NativeFn) (args : list PyVal) (reply : Res Reply)
| Printed (fmt : string) (args : list PyVal).

Section Run.
(** The native library: a state [N] and, for every function, the reply
    and the next state. *)
Context {N : Type}.
Variable handler : NativeFn -> list PyVal -> N -> Res Reply * N.

(** [run p n] executes [p] from the native state [n]: the result, the
    final native state and the events in the order they happened. *)
Fixpoint run {A : Type} (p : Prog A) (n : N) : A * N * list Event :=
  match p with
  | Done a => (a, n, [])
  | Call f args k =>
      let '(r, n1) := handler f args n in
      let '(a, n2, evs) := run (k r) n1 in
      (a, n2, Called f args r :: evs)
  | Print fmt args k =>
      let '(a, n2, evs) := run k n in
      (a, n2, Printed fmt args :: evs)
  end.
End Run.

(** The native functions a trace invoked, in order. *)
Definition invoked (evs : list Event) : list NativeFn :=
  omap (fun e => match e with Called f _ _ => Some f | Printed _ _ => None end) evs.

(** ** Error handling *)

(** [result is not True], negated. *)
Definition is_True (v : PyVal) : bool :=
  match v with PyBool true => true | _ => false end.

(** [x.decode()] of a [c_char_p] result: [bytes] decode to [str]; [None]
    and the other values have no such method. *)
Definition decode {S : Type} (v : PyVal) : M S string :=
  match v with
  | PyBytes s => mret s
  | _ => raise AttributeError
  end.

(** [_raise_exception]: raises exception depending on error code. *)
Definition _raise_exception {S : Type} (result : PyVal) : M S unit :=
  if is_True result then mret tt
  else
    error <- native TLN_GetLastError [] ;;
    error_string <- native TLN_GetErrorString [ret error] ;;
    value <- decode (ret error_string) ;;
    raise (TilengineException value).

(** ** Python conversions *)

(** [int(x)] of a float: truncation toward zero; [nan] and the infinities
    raise.  A finite float is [(-1)^s * m * 2^e]. *)
Definition int_of_float (f : spec_float) : Res Z :=
  match f with
  | S754_zero _ => Normal 0
  | S754_infinity _ => Raised OverflowError
  | S754_nan => Raised ValueError
  | S754_finite s m e =>
      let magnitude := Z.shiftl (Z.pos m) e in
      Normal (if s then - magnitude else magnitude)
  end.

(** The built-in [int(x)]. *)
Definition py_int {S : Type} (x : PyVal) : M S Z :=
  match x with
  | PyInt z => mret z
  | PyBool b => mret (if b then 1 else 0)
  | PyFloat f =>
      match int_of_float f with
      | Normal z => mret z
      | Raised e => raise e
      end
  | PyStr s | PyBytes s =>
      match int_of_str 10 s with
      | Some z => mret z
      | None => raise ValueError
      end
  | PyNone | PyTile _ _ | PyCallback _ => raise TypeError
  end.

(** [range(n)] as a list. *)
Definition py_range (n : Z) : list Z := map Z.of_nat (seq 0 (Z.to_nat n)).

(** A [c_ushort] field of a structure keeps the low 16 bits. *)
Definition c_ushort (z : Z) : Z := z mod 65536.

(** A [Tile] structure with the two fields assigned. *)
Definition Tile (index flags : Z) : PyVal := PyTile (c_ushort index) (c_ushort flags).

(** ** Wrapper objects *)

(** The wrappers keep the native handle in [_as_parameter_] and the
    ownership flag; the attributes cached from the native object at
    construction play no part in the methods below and are left out. *)
Record Palette : Type := mkPalette
  { palette_as_parameter : PyVal; palette_owner : bool }.

Record Tileset : Type := mkTileset
  { tileset_as_parameter : PyVal; tileset_owner : bool }.

Record Tilemap : Type := mkTilemap
  { tilemap_as_parameter : PyVal; tilemap_owner : bool }.

Record Bitmap : Type := mkBitmap
  { bitmap_as_parameter : PyVal; bitmap_owner : bool }.

Record Spriteset : Type := mkSpriteset
  { spriteset_as_parameter : PyVal; spriteset_owner : bool }.

(** [class ObjectList]: a stub without fields. *)
Inductive ObjectList : Type := mkObjectList.

(** An argument that is an object or [None], as [ctypes] receives it. *)
Definition as_parameter {A : Type} (handle : A -> PyVal) (o : option A) : PyVal :=
  match o with
  | Some x => handle x
  | None => PyNone
  end.

(** ** [class Tilemap] *)

(** [Tilemap.set_tileset] *)
Definition Tilemap_set_tileset {S : Type} (self : Tilemap)
    (tileset : option Tileset) (index : PyVal) : M S unit :=
  ok <- native TLN_SetTilemapTileset2
          [tilemap_as_parameter self; as_parameter tileset_as_parameter tileset; index] ;;
  _raise_exception (ret ok).

(** [Tilemap.get_tile]: the object acted upon is the structure the caller
    provides, which the native call fills. *)
Definition Tilemap_get_tile (self : Tilemap) (row col : PyVal) : M PyVal unit :=
  tile_info <- get ;;
  ok <- native TLN_GetTilemapTile [tilemap_as_parameter self; row; col; tile_info] ;;
  match written ok with
  | Some contents => put contents
  | None => mret tt
  end ;;
  _raise_exception (ret ok).

(** [Tilemap.set_tile]: [None] erases the cell with a fresh [Tile]. *)
Definition Tilemap_set_tile {S : Type} (self : Tilemap) (row col : PyVal)
    (tile_info : option PyVal) : M S unit :=
  ok <- match tile_info with
        | Some t => native TLN_SetTilemapTile [tilemap_as_parameter self; row; col; t]
        | None => native TLN_SetTilemapTile [tilemap_as_parameter self; row; col; Tile 0 0]
        end ;;
  _raise_exception (ret ok).

(** ** [class Palette] *)

(** [Palette.set_color] *)
Definition Palette_set_color {S : Type} (self : Palette) (entry : PyVal)
    (color : Color) : M S unit :=
  ok <- native TLN_SetPaletteColor
          [palette_as_parameter self; entry; r color; g color; b color] ;;
  _raise_exception (ret ok).

(** ** [class Layer] *)

Record Layer : Type := mkLayer
  { layer_index : Z;
    layer_as_parameter : Z;
    width : PyVal;
    height : PyVal;
    tilemap : option Tilemap;
    bitmap : option Bitmap;
    objectlist : option ObjectList }.

(** [Layer.__init__] *)
Definition Layer_init (index : Z) : Layer :=
  {| layer_index := index; layer_as_parameter := index;
     width := PyInt 0; height := PyInt 0;
     tilemap := None; bitmap := None; objectlist := None |}.

Definition set_width (v : PyVal) : M Layer unit :=
  fun self => Done (Normal tt,
    {| layer_index := layer_index self; layer_as_parameter := layer_as_parameter self;
       width := v; height := height self;
       tilemap := tilemap self; bitmap := bitmap self; objectlist := objectlist self |}).

Definition set_height (v : PyVal) : M Layer unit :=
  fun self => Done (Normal tt,
    {| layer_index := layer_index self; layer_as_parameter := layer_as_parameter self;
       width := width self; height := v;
       tilemap := tilemap self; bitmap := bitmap self; objectlist := objectlist self |}).

Definition set_tilemap_attr (v : option Tilemap) : M Layer unit :=
  fun self => Done (Normal tt,
    {| layer_index := layer_index self; layer_as_parameter := layer_as_parameter self;
       width := width self; height := height self;
       tilemap := v; bitmap := bitmap self; objectlist := objectlist self |}).

Definition set_bitmap_attr (v : option Bitmap) : M Layer unit :=
  fun self => Done (Normal tt,
    {| layer_index := layer_index self; layer_as_parameter := layer_as_parameter self;
       width := width self; height := height self;
       tilemap := tilemap self; bitmap := v; objectlist := objectlist self |}).

Definition set_objectlist_attr (v : option ObjectList) : M Layer unit :=
  fun self => Done (Normal tt,
    {| layer_index := layer_index self; layer_as_parameter := layer_as_parameter self;
       width := width self; height := height self;
       tilemap := tilemap self; bitmap := bitmap self; objectlist := v |}).

(** [self] as a [c_int] argument. *)
Definition layer_self : M Layer PyVal :=
  self <- get ;; mret (PyInt (layer_as_parameter self)).

(** [Layer.setup]: enables a background layer by setting the specified
    tilemap and optional tileset. *)
Definition Layer_setup (tilemap : option Tilemap) (tileset : option Tileset)
  : M Layer PyVal :=
  self <- layer_self ;;
  ok <- native TLN_SetLayer
          [self; as_parameter tileset_as_parameter tileset;
           as_parameter tilemap_as_parameter tilemap] ;;
  if is_True (ret ok) then
    w <- native TLN_GetLayerWidth [self] ;;
    set_width (ret w) ;;
    h <- native TLN_GetLayerHeight [self] ;;
    set_height (ret h) ;;
    set_tilemap_attr tilemap ;;
    match tileset with
    | Some _ =>
        match tilemap with
        | Some tm => Tilemap_set_tileset tm tileset (PyInt 0)
        | None => raise AttributeError
        end
    | None => mret tt
    end ;;
    mret (ret ok)
  else
    _raise_exception (PyBool false) ;;
    mret PyNone.

(** [Layer.set_tilemap] *)
Definition Layer_set_tilemap (tilemap : option Tilemap) : M Layer PyVal :=
  self <- layer_self ;;
  ok <- native TLN_SetLayerTilemap [self; as_parameter tilemap_as_parameter tilemap] ;;
  if is_True (ret ok) then
    w <- native TLN_GetLayerWidth [self] ;;
    set_width (ret w) ;;
    h <- native TLN_GetLayerHeight [self] ;;
    set_height (ret h) ;;
    set_tilemap_attr tilemap ;;
    set_bitmap_attr None ;;
    set_objectlist_attr None ;;
    mret (ret ok)
  else
    _raise_exception (PyBool false) ;;
    mret PyNone.

(** [Layer.set_bitmap] *)
Definition Layer_set_bitmap (bitmap : option Bitmap) : M Layer PyVal :=
  self <- layer_self ;;
  ok <- native TLN_SetLayerBitmap [self; as_parameter bitmap_as_parameter bitmap] ;;
  if is_True (ret ok) then
    w <- native TLN_GetLayerWidth [self] ;;
    set_width (ret w) ;;
    h <- native TLN_GetLayerHeight [self] ;;
    set_height (ret h) ;;
    set_bitmap_attr bitmap ;;
    set_tilemap_attr None ;;
    set_objectlist_attr None ;;
    mret (ret ok)
  else
    _raise_exception (PyBool false) ;;
    mret PyNone.

(** [Layer.set_palette] *)
Definition Layer_set_palette (palette : option Palette) : M Layer unit :=
  self <- layer_self ;;
  ok <- native TLN_SetLayerPalette [self; as_parameter palette_as_parameter palette] ;;
  _raise_exception (ret ok).

(** [Layer.set_position]: both coordinates go through [int] before the
    call. *)
Definition Layer_set_position (x y : PyVal) : M Layer unit :=
  self <- layer_self ;;
  ix <- py_int x ;;
  iy <- py_int y ;;
  ok <- native TLN_SetLayerPosition [self; PyInt ix; PyInt iy] ;;
  _raise_exception (ret ok).

(** ** [class Sprite] *)

Record Sprite : Type := mkSprite
  { sprite_index : Z;
    sprite_as_parameter : Z;
    spriteset : option Spriteset }.

(** [Sprite.__init__] *)
Definition Sprite_init (index : Z) : Sprite :=
  {| sprite_index := index; sprite_as_parameter := index; spriteset := None |}.

Definition set_spriteset_attr (v : option Spriteset) : M Sprite unit :=
  fun self => Done (Normal tt,
    {| sprite_index := sprite_index self;
       sprite_as_parameter := sprite_as_parameter self;
       spriteset := v |}).

Definition sprite_self : M Sprite PyVal :=
  self <- get ;; mret (PyInt (sprite_as_parameter self)).

(** [Sprite.setup]: the attribute is assigned before the result is
    checked. *)
Definition Sprite_setup (spriteset : option Spriteset) (flags : PyVal)
  : M Sprite unit :=
  self <- sprite_self ;;
  ok <- native TLN_ConfigSprite
          [self; as_parameter spriteset_as_parameter spriteset; flags] ;;
  set_spriteset_attr spriteset ;;
  _raise_exception (ret ok).

(** [Sprite.set_spriteset] *)
Definition Sprite_set_spriteset (spriteset : option Spriteset) : M Sprite unit :=
  self <- sprite_self ;;
  ok <- native TLN_SetSpriteSet
          [self; as_parameter spriteset_as_parameter spriteset] ;;
  set_spriteset_attr spriteset ;;
  _raise_exception (ret ok).

(** [entry != -1]: an [int] differs from -1 unless it is -1, a float
    unless its value is -1; [True], [False] and the values that are not
    numbers differ. *)
Definition differs_from_minus_one (v : PyVal) : bool :=
  match v with
  | PyInt z => negb (z =? -1)
  | PyFloat (S754_finite true m e) => negb ((e <=? 0) && (Z.pos m =? 2 ^ (- e)))
  | _ => true
  end.

(** [Sprite.set_picture]: [type(picture)] selects the branch; a [bool] is
    not an [int] for [is]. *)
Definition Sprite_set_picture (picture : PyVal) : M Sprite unit :=
  self <- sprite_self ;;
  match picture with
  | PyInt _ =>
      ok <- native TLN_SetSpritePicture [self; picture] ;;
      _raise_exception (ret ok)
  | PyStr _ =>
      this <- get ;;
      entry <- native TLN_FindSpritesetSprite
                 [as_parameter spriteset_as_parameter (spriteset this); picture] ;;
      if differs_from_minus_one (ret entry) then
        ok <- native TLN_SetSpritePicture [self; ret entry] ;;
        _raise_exception (ret ok)
      else mret tt
  | _ => mret tt
  end.

(** [Sprite.set_first]: sets this to be the first sprite drawn. *)
Definition Sprite_set_first : M Sprite unit :=
  self <- sprite_self ;;
  ok <- native TLN_SetFirstSprite [self] ;;
  _raise_exception (ret ok).

(** [Sprite.set_next]: sets the sprite to draw after this one. *)
Definition Sprite_set_next (next : PyVal) : M Sprite unit :=
  self <- sprite_self ;;
  ok <- native TLN_SetNextSprite [self; next] ;;
  _raise_exception (ret ok).

(** ** [class Animation] *)

Record Animation : Type := mkAnimation
  { animation_index : Z; animation_as_parameter : Z }.

(** [Animation.__init__] *)
Definition Animation_init (index : Z) : Animation :=
  {| animation_index := index; animation_as_parameter := index |}.

(** ** [class Engine] *)

Record Engine : Type := mkEngine
  { engine_as_parameter : PyVal;
    layers : list Layer;
    sprites : list Sprite;
    animations : list Animation;
    version : PyVal;
    cb_raster_func : PyVal;
    cb_frame_func : PyVal;
    cb_blend_func : PyVal }.

(** The expected library version, [[2,11,0]] packed. *)
Definition req_version : Z := Z.shiftl 2 16 + Z.shiftl 11 8 + 0.

(** [Engine.__init__]: one wrapper per layer, sprite and animation slot,
    then the version check with its warning. *)
Definition Engine_init (handle : PyVal) (num_layers num_sprites num_animations : Z)
  : M unit Engine :=
  v <- native TLN_GetVersion [] ;;
  let self :=
    {| engine_as_parameter := handle;
       layers := map Layer_init (py_range num_layers);
       sprites := map Sprite_init (py_range num_sprites);
       animations := map Animation_init (py_range num_animations);
       version := ret v;
       cb_raster_func := PyNone;
       cb_frame_func := PyNone;
       cb_blend_func := PyNone |} in
  match ret v with
  | PyInt ver =>
      if ver <? req_version then
        print "WARNING: Library version is %d.%d.%d, expected at least %d.%d.%d!"
          [PyInt (Z.shiftr ver 16); PyInt (Z.land (Z.shiftr ver 8) 255);
           PyInt (Z.land ver 255); PyInt 2; PyInt 11; PyInt 0] ;;
        mret self
      else mret self
  | _ => raise TypeError
  end.

(** [Engine.create]: a [None] handle raises through [_raise_exception()],
    whose default argument is [False]. *)
Definition Engine_create (width height num_layers num_sprites num_animations : Z)
  : M unit (option Engine) :=
  handle <- native TLN_Init
              [PyInt width; PyInt height; PyInt num_layers; PyInt num_sprites;
               PyInt num_animations] ;;
  match ret handle with
  | PyNone =>
      _raise_exception (PyBool false) ;;
      mret None
  | h =>
      _engine <- Engine_init h num_layers num_sprites num_animations ;;
      mret (Some _engine)
  end.

Definition set_cb_raster_func (v : PyVal) : M Engine unit :=
  fun self => Done (Normal tt,
    {| engine_as_parameter := engine_as_parameter self;
       layers := layers self; sprites := sprites self;
       animations := animations self; version := version self;
       cb_raster_func := v;
       cb_frame_func := cb_frame_func self;
       cb_blend_func := cb_blend_func self |}).

Definition set_cb_frame_func (v : PyVal) : M Engine unit :=
  fun self => Done (Normal tt,
    {| engine_as_parameter := engine_as_parameter self;
       layers := layers self; sprites := sprites self;
       animations := animations self; version := version self;
       cb_raster_func := cb_raster_func self;
       cb_frame_func := v;
       cb_blend_func := cb_blend_func self |}).

(** [_video_callback_function(f)], or [None] kept as it is.  The user's
    function is known by a number. *)
Definition video_callback (f : option nat) : PyVal :=
  match f with
  | Some id => PyCallback id
  | None => PyNone
  end.

(** [Engine.set_raster_callback] *)
Definition Engine_set_raster_callback (raster_callback : option nat) : M Engine unit :=
  set_cb_raster_func (video_callback raster_callback) ;;
  self <- get ;;
  native TLN_SetRasterCallback [cb_raster_func self] ;;
  mret tt.

(** [Engine.set_frame_callback] *)
Definition Engine_set_frame_callback (frame_callback : option nat) : M Engine unit :=
  set_cb_frame_func (video_callback frame_callback) ;;
  self <- get ;;
  native TLN_SetFrameCallback [cb_frame_func self] ;;
  mret tt.

(** [Engine.update_frame] *)
Definition Engine_update_frame {S : Type} (num_frame : PyVal) : M S unit :=
  native TLN_UpdateFrame [num_frame] ;;
  mret tt.

(** The argument of [Engine.set_background_color], by its [type]. *)
Inductive BackgroundParam : Type :=
| ParamColor (c : Color)
| ParamTilemap (t : Tilemap)
| ParamOther (v : PyVal).

(** [Engine.set_background_color]: neither native result is looked at. *)
Definition Engine_set_background_color {S : Type} (param : BackgroundParam) : M S unit :=
  match param with
  | ParamColor c => native TLN_SetBGColor [r c; g c; b c] ;; mret tt
  | ParamTilemap t => native TLN_SetBGColorFromTilemap [tilemap_as_parameter t] ;; mret tt
  | ParamOther _ => mret tt
  end.

(** [Engine.set_background_bitmap]: the result is checked. *)
Definition Engine_set_background_bitmap {S : Type} (bitmap : option Bitmap) : M S unit :=
  ok <- native TLN_SetBGBitmap [as_parameter bitmap_as_parameter bitmap] ;;
  _raise_exception (ret ok).

(** ** The native library, as far as the specification describes it *)

(** Modelled from the spec: the error texts of the native library, which
    is not part of the repository; the specification only says that an
    error is "surfaced to the caller as a raised exception", so each code
    gets the wording [class Error] documents for it. *)
Definition error_string (code : Z) : string :=
  match code with
  | 0 => "No error"
  | 1 => "Not enough memory"
  | 2 => "Layer index out of range"
  | 3 => "Sprite index out of range"
  | 4 => "Animation index out of range"
  | 5 => "Picture or tile index out of range"
  | 6 => "Invalid Tileset reference"
  | 7 => "Invalid Tilemap reference"
  | 8 => "Invalid Spriteset reference"
  | 9 => "Invalid Palette reference"
  | 10 => "Invalid SequencePack reference"
  | 11 => "Invalid Sequence reference"
  | 12 => "Invalid Bitmap reference"
  | 13 => "Null pointer as argument"
  | 14 => "Resource file not found"
  | 15 => "Resource file has invalid format"
  | 16 => "A width or height parameter is invalid"
  | 17 => "Unsupported function"
  | 18 => "Invalid ObjectList reference"
  | _ => ""
  end.

(** A [c_int] parameter keeps the low 32 bits of a Python [int], read as
    a signed number. *)
Definition c_int (z : Z) : Z := (z + 2 ^ 31) mod 2 ^ 32 - 2 ^ 31.

Definition reply (v : PyVal) : Res Reply := Normal (mkReply v None).

(** Modelled from the spec: the last-error slot of the native library,
    which is not part of the repository.  "Both are reported via a
    last-error slot readable after any failing call": [TLN_GetLastError]
    reads the slot, [TLN_GetErrorString] gives the text of a code. *)
Definition error_slot_call (f : NativeFn) (args : list PyVal) (last_error : Z)
  : option (Res Reply) :=
  match f, args with
  | TLN_GetLastError, [] => Some (reply (PyInt last_error))
  | TLN_GetErrorString, [PyInt code] => Some (reply (PyBytes (error_string (c_int code))))
  | _, _ => None
  end.

Module TilemapStore.

(** Modelled from the spec: the native Tilemap Store, which is not part
    of the repository.  "Tilemap: rows x cols grid of Tile cells {index:
    unsigned 16-bit tile id, flags: bitfield}", "mutable cell-by-cell";
    "invalid indices fail with IndexOutOfRange and leave state unchanged;
    null/missing references fail with InvalidReference".  The cells are
    kept row by row. *)
Record Grid : Type := mkGrid { rows : Z; cols : Z; cells : list (Z * Z) }.

(** Modelled from the spec: the state of the Tilemap Store, the tilemaps
    by handle and the last-error slot. *)
Record State : Type := mkState { tilemaps : gmap Z Grid; last_error : Z }.

(** Modelled from the spec: a failing call answers false, records its
    error in the last-error slot and leaves the rest of the state. *)
Definition fail (code : Z) (s : State) : Res Reply * State :=
  (reply (PyBool false), {| tilemaps := tilemaps s; last_error := code |}).

(** Position of the cell [(row, col)] in the grid, when it is in range. *)
Definition cell_pos (g : Grid) (row col : Z) : option nat :=
  if (0 <=? row) && (row <? rows g) && (0 <=? col) && (col <? cols g)
  then Some (Z.to_nat (row * cols g + col))
  else None.

(** Modelled from the spec: the native [TLN_SetTilemapTile], which
    replaces one cell; a missing tilemap is an invalid reference, a cell
    outside the grid an index out of range. *)
Definition SetTilemapTile (h row col index flags : Z) (s : State) : Res Reply * State :=
  match tilemaps s !! h with
  | None => fail Error.REF_TILEMAP s
  | Some g =>
      match cell_pos g (c_int row) (c_int col) with
      | None => fail Error.IDX_PICTURE s
      | Some p =>
          let g' := {| rows := rows g; cols := cols g;
                       cells := <[p := (index, flags)]> (cells g) |} in
          (reply (PyBool true),
           {| tilemaps := <[h := g']> (tilemaps s); last_error := last_error s |})
      end
  end.

(** Modelled from the spec: the native [TLN_GetTilemapTile], which writes
    the cell into the structure of the caller. *)
Definition GetTilemapTile (h row col : Z) (s : State) : Res Reply * State :=
  match tilemaps s !! h with
  | None => fail Error.REF_TILEMAP s
  | Some g =>
      match cell_pos g (c_int row) (c_int col) with
      | None => fail Error.IDX_PICTURE s
      | Some p =>
          match cells g !! p with
          | Some (index, flags) =>
              (Normal (mkReply (PyBool true) (Some (PyTile index flags))), s)
          | None => fail Error.IDX_PICTURE s
          end
      end
  end.

(** Modelled from the spec: the store as a native library.  A null handle
    is a missing reference; arguments of another shape are refused by
    [ctypes]. *)
Definition handler (f : NativeFn) (args : list PyVal) (s : State) : Res Reply * State :=
  match error_slot_call f args (last_error s) with
  | Some r => (r, s)
  | None =>
      match f, args with
      | TLN_SetTilemapTile, [PyInt h; PyInt row; PyInt col; PyTile index flags] =>
          SetTilemapTile h row col index flags s
      | TLN_SetTilemapTile, [PyNone; PyInt _; PyInt _; PyTile _ _] =>
          fail Error.REF_TILEMAP s
      | TLN_GetTilemapTile, [PyInt h; PyInt row; PyInt col; PyTile _ _] =>
          GetTilemapTile h row col s
      | TLN_GetTilemapTile, [PyNone; PyInt _; PyInt _; PyTile _ _] =>
          fail Error.REF_TILEMAP s
      | _, _ => (Raised ArgumentError, s)
      end
  end.

(** A grid has as many cells as its size says, and its sides are C
    [int]s. *)
Definition wf_grid (g : Grid) : Prop :=
  0 <= rows g < 2 ^ 31 /\ 0 <= cols g < 2 ^ 31 /\
  Z.of_nat (length (cells g)) = rows g * cols g.

End TilemapStore.

Module SpriteCompositor.

(** Modelled from the spec: the native Sprite Compositor, which is not
    part of the repository.  "Sprite: index into a fixed-size array
    (0..num_sprites-1); holds an assigned Spriteset, ... and a
    next-sprite index forming a singly linked z-order chain rooted at a
    first sprite pointer"; "set_first designates the head, each sprite's
    set_next link determines paint order (first drawn = bottom-most)";
    "sprites outside the current viewport or disabled are skipped".
    [shown] says whether a sprite is enabled and inside the viewport. *)
Record Slot : Type := mkSlot
  { assigned : option Z; flags : Z; next : option nat; shown : bool }.

(** Modelled from the spec: the state of the Sprite Compositor, the array
    of sprites, the first sprite pointer and the last-error slot. *)
Record State : Type := mkState
  { slots : list Slot; first : option nat; last_error : Z }.

(** Modelled from the spec: a failing call answers false, records its
    error in the last-error slot and leaves the sprites as they were. *)
Definition fail (code : Z) (s : State) : Res Reply * State :=
  (reply (PyBool false),
   {| slots := slots s; first := first s; last_error := code |}).

(** A sprite index in the declared range, as a position in the array. *)
Definition slot_of (s : State) (index : Z) : option nat :=
  let i := c_int index in
  if (0 <=? i) && (i <? Z.of_nat (length (slots s))) then Some (Z.to_nat i) else None.

Definition update (s : State) (i : nat) (f : Slot -> Slot) : State :=
  {| slots := alter f i (slots s); first := first s; last_error := last_error s |}.

(** Modelled from the spec: the native [TLN_ConfigSprite], which assigns
    the spriteset and the flags and enables the sprite; an index outside
    the array is an index out of range, a null spriteset an invalid
    reference. *)
Definition ConfigSprite (index : Z) (spriteset : option Z) (fl : Z) (s : State)
  : Res Reply * State :=
  match slot_of s index with
  | None => fail Error.IDX_SPRITE s
  | Some i =>
      match spriteset with
      | None => fail Error.REF_SPRITESET s
      | Some h =>
          (reply (PyBool true),
           update s i (fun sl => {| assigned := Some h; flags := fl mod 65536;
                                    next := next sl; shown := true |}))
      end
  end.

(** Modelled from the spec: the native [TLN_SetSpriteSet], which assigns
    the spriteset and enables the sprite. *)
Definition SetSpriteSet (index : Z) (spriteset : option Z) (s : State)
  : Res Reply * State :=
  match slot_of s index with
  | None => fail Error.IDX_SPRITE s
  | Some i =>
      match spriteset with
      | None => fail Error.REF_SPRITESET s
      | Some h =>
          (reply (PyBool true),
           update s i (fun sl => {| assigned := Some h; flags := flags sl;
                                    next := next sl; shown := true |}))
      end
  end.

(** Modelled from the spec: the native [TLN_SetFirstSprite]: "set_first
    designates the head" of the z-order chain. *)
Definition SetFirstSprite (index : Z) (s : State) : Res Reply * State :=
  match slot_of s index with
  | None => fail Error.IDX_SPRITE s
  | Some i =>
      (reply (PyBool true),
       {| slots := slots s; first := Some i; last_error := last_error s |})
  end.

(** Modelled from the spec: the native [TLN_SetNextSprite], which sets
    the next-sprite index of a sprite; both indices must be in range. *)
Definition SetNextSprite (index nxt : Z) (s : State) : Res Reply * State :=
  match slot_of s index, slot_of s nxt with
  | Some i, Some j =>
      (reply (PyBool true),
       update s i (fun sl => {| assigned := assigned sl; flags := flags sl;
                                next := Some j; shown := shown sl |}))
  | _, _ => fail Error.IDX_SPRITE s
  end.

(** Modelled from the spec: the "singly linked z-order chain" from
    [cur], each sprite when its turn comes, for at most [fuel] links. *)
Fixpoint chain (fuel : nat) (sl : list Slot) (cur : option nat) : list nat :=
  match fuel, cur with
  | S fuel', Some i =>
      match sl !! i with
      | Some slot => i :: chain fuel' sl (next slot)
      | None => []
      end
  | _, _ => []
  end.

(** Modelled from the spec: the composite order of a frame, the chain
    "rooted at a first sprite pointer", one link per slot at most. *)
Definition composite_order (s : State) : list nat :=
  chain (length (slots s)) (slots s) (first s).

Definition is_shown (s : State) (i : nat) : bool :=
  match slots s !! i with
  | Some slot => shown slot
  | None => false
  end.

(** Modelled from the spec: the sprites a frame paints, bottom-most
    first, those not shown being skipped. *)
Definition paint_order (s : State) : list nat :=
  List.filter (is_shown s) (composite_order s).

Definition handle_of (v : PyVal) : option (option Z) :=
  match v with
  | PyInt h => Some (Some h)
  | PyNone => Some None
  | _ => None
  end.

(** Modelled from the spec: the compositor as a native library. *)
Definition handler (f : NativeFn) (args : list PyVal) (s : State) : Res Reply * State :=
  match error_slot_call f args (last_error s) with
  | Some r => (r, s)
  | None =>
      match f, args with
      | TLN_ConfigSprite, [PyInt index; spriteset; PyInt fl] =>
          match handle_of spriteset with
          | Some h => ConfigSprite index h fl s
          | None => (Raised ArgumentError, s)
          end
      | TLN_SetSpriteSet, [PyInt index; spriteset] =>
          match handle_of spriteset with
          | Some h => SetSpriteSet index h s
          | None => (Raised ArgumentError, s)
          end
      | TLN_SetFirstSprite, [PyInt index] => SetFirstSprite index s
      | TLN_SetNextSprite, [PyInt index; PyInt nxt] => SetNextSprite index nxt s
      | _, _ => (Raised ArgumentError, s)
      end
  end.

End SpriteCompositor.

Module FrameScheduler.
Section Scheduler.

Context {Scene Line : Type}.
Variable user : nat -> Z -> Scene -> Scene.
Variable composite : Scene -> Z -> Line.

(** Modelled from the spec: an invocation of a user callback, with its
    argument, the scanline number or the frame counter. *)
Inductive Invocation : Type :=
| Raster (id : nat) (scanline : Z)
| Frame (id : nat) (frame : Z).

(** Modelled from the spec: the native Frame Scheduler, which is not part
    of the repository.  "For each scanline 0..height-1 (in order, no
    skipping, no reordering): invoke the registered raster callback (if
    any) with the scanline number, allowing it to mutate any
    Layer/Sprite/Palette/Animation state for the next scanlines only;
    then composite that scanline ... After the last scanline, invoke the
    registered frame callback (if any) with the frame counter"; "entering
    RenderingFrame advances the Animation Engine by exactly one tick".
    [Scene] is the render state the callbacks may change, [user] what the
    user's function numbered [id] does to it, [composite] the line the
    compositors produce from it. *)
Record State : Type := mkState
  { height : nat;
    raster_callback : option nat;
    frame_callback : option nat;
    ticks : nat;
    scene : Scene;
    target : list Line;
    invocations : list Invocation }.

(** Modelled from the spec: registering the raster callback, or none. *)
Definition set_raster (cb : option nat) (s : State) : State :=
  {| height := height s; raster_callback := cb;
     frame_callback := frame_callback s; ticks := ticks s; scene := scene s;
     target := target s; invocations := invocations s |}.

(** Modelled from the spec: registering the frame callback, or none. *)
Definition set_frame (cb : option nat) (s : State) : State :=
  {| height := height s; raster_callback := raster_callback s;
     frame_callback := cb; ticks := ticks s; scene := scene s;
     target := target s; invocations := invocations s |}.

(** Modelled from the spec: entering the frame, one tick of the animation
    engine and an empty target. *)
Definition enter_frame (s : State) : State :=
  {| height := height s; raster_callback := raster_callback s;
     frame_callback := frame_callback s; ticks := S (ticks s); scene := scene s;
     target := []; invocations := invocations s |}.

(** Modelled from the spec: one scanline, the raster callback, if any,
    then the compositors. *)
Definition scanline_step (line : Z) (s : State) : State :=
  let '(sc, inv) :=
    match raster_callback s with
    | Some id => (user id line (scene s), invocations s ++ [Raster id line])
    | None => (scene s, invocations s)
    end in
  {| height := height s; raster_callback := raster_callback s;
     frame_callback := frame_callback s; ticks := ticks s; scene := sc;
     target := target s ++ [composite sc line]; invocations := inv |}.

(** Modelled from the spec: the scanlines [line], [line+1], ..., [count]
    of them, "in order, no skipping, no reordering". *)
Fixpoint scanlines (count : nat) (line : Z) (s : State) : State :=
  match count with
  | O => s
  | S count' => scanlines count' (line + 1) (scanline_step line s)
  end.

(** Modelled from the spec: after the last scanline, the frame callback,
    if any. *)
Definition complete_frame (frame : Z) (s : State) : State :=
  match frame_callback s with
  | Some id =>
      {| height := height s; raster_callback := raster_callback s;
         frame_callback := frame_callback s; ticks := ticks s;
         scene := user id frame (scene s);
         target := target s; invocations := invocations s ++ [Frame id frame] |}
  | None => s
  end.

(** Modelled from the spec: the native [TLN_UpdateFrame], one frame of
    the scheduler. *)
Definition UpdateFrame (frame : Z) (s : State) : State :=
  complete_frame frame (scanlines (height s) 0 (enter_frame s)).

(** Modelled from the spec: the scheduler as a native library.  The three
    functions have no declared [restype], so an [int] comes back, which
    the binding does not look at. *)
Definition handler (f : NativeFn) (args : list PyVal) (s : State) : Res Reply * State :=
  match f, args with
  | TLN_SetRasterCallback, [PyCallback id] => (reply (PyInt 0), set_raster (Some id) s)
  | TLN_SetRasterCallback, [PyNone] => (reply (PyInt 0), set_raster None s)
  | TLN_SetFrameCallback, [PyCallback id] => (reply (PyInt 0), set_frame (Some id) s)
  | TLN_SetFrameCallback, [PyNone] => (reply (PyInt 0), set_frame None s)
  | TLN_UpdateFrame, [PyInt frame] => (reply (PyInt 0), UpdateFrame (c_int frame) s)
  | _, _ => (Raised ArgumentError, s)
  end.

End Scheduler.
End FrameScheduler.

(** ** A native library that answers from a script *)

(** The replies are taken from a list, one per call, whatever the function;
    once the list is used up every call answers [None]. *)
Definition scripted (f : NativeFn) (args : list PyVal) (script : list (Res Reply))
  : Res Reply * list (Res Reply) :=
  match script with
  | r :: rest => (r, rest)
  | [] => (reply PyNone, [])
  end.

(** ** Declared result types *)

(** The [restype] the source declares for a native function; a function
    without a declaration has the default of [ctypes], [c_int]. *)
Module Restype.
Inductive t : Type := c_bool | c_int | c_void_p | c_char_p | none.
End Restype.

Definition restype (f : NativeFn) : Restype.t :=
  match f with
  | TLN_GetLastError | TLN_GetVersion | TLN_GetLayerWidth | TLN_GetLayerHeight
  | TLN_FindSpritesetSprite | TLN_GetWindowWidth | TLN_GetWindowHeight
  | TLN_GetSequencePackCount => Restype.c_int
  | TLN_SetBGColor | TLN_SetRasterCallback | TLN_SetFrameCallback | TLN_UpdateFrame
  | TLN_SetSpritesMaskRegion | TLN_SetWindowTitle | TLN_DrawFrame => Restype.c_int
  | TLN_GetErrorString => Restype.c_char_p
  | TLN_Init | TLN_GetLayerPalette | TLN_GetSpritePalette | TLN_CreatePalette
  | TLN_LoadPalette | TLN_ClonePalette | TLN_GetSequence | TLN_FindSequence =>
      Restype.c_void_p
  | TLN_SetWorldPosition => Restype.none
  | TLN_SetBGColorFromTilemap | TLN_SetBGBitmap | TLN_SetTilemapTileset2
  | TLN_GetTilemapTile | TLN_SetTilemapTile | TLN_SetPaletteColor | TLN_SetLayer
  | TLN_SetLayerTilemap | TLN_SetLayerBitmap | TLN_SetLayerPalette
  | TLN_SetLayerPosition | TLN_ConfigSprite | TLN_SetSpriteSet | TLN_SetSpritePicture
  | TLN_SetFirstSprite | TLN_SetNextSprite | TLN_DeletePalette | TLN_CreateWindow
  | TLN_CreateWindowThread | TLN_ProcessWindow | TLN_GetSequenceInfo
  | TLN_AddSequenceToPack | TLN_DeleteSequence => Restype.c_bool
  end.

(** The Python values [ctypes] builds for a result type: a [bool], an
    [int] of 32 bits, [None] or a non-null address, [None] or [bytes], and
    [None] for a function declared to return nothing. *)
Definition conforms (t : Restype.t) (v : PyVal) : bool :=
  match t, v with
  | Restype.c_bool, PyBool _ => true
  | Restype.c_int, PyInt z => (- 2 ^ 31 <=? z) && (z <? 2 ^ 31)
  | Restype.c_void_p, PyNone => true
  | Restype.c_void_p, PyInt z => (0 <? z) && (z <? 2 ^ 64)
  | Restype.c_char_p, PyNone => true
  | Restype.c_char_p, PyBytes _ => true
  | Restype.none, PyNone => true
  | _, _ => false
  end.

(** ** Declared parameter types *)

(** The parameter types the source declares in [argtypes]. *)
Module Argtype.
Inductive t : Type :=
| c_int | c_ubyte | c_ushort | c_void_p | c_char_p
| pointer_Tile | pointer_SequenceInfo.
End Argtype.

(** The [argtypes] the source declares for a native function; [None] for
    a function it declares none for. *)
Definition argtypes (f : NativeFn) : option (list Argtype.t) :=
  match f with
  | TLN_GetLastError | TLN_GetVersion | TLN_SetRasterCallback | TLN_SetFrameCallback
  | TLN_SetWindowTitle | TLN_GetWindowWidth | TLN_GetWindowHeight
  | TLN_ProcessWindow => None
  | TLN_GetErrorString | TLN_UpdateFrame | TLN_GetLayerWidth | TLN_GetLayerHeight
  | TLN_SetFirstSprite | TLN_GetLayerPalette | TLN_GetSpritePalette
  | TLN_CreatePalette | TLN_DrawFrame => Some [Argtype.c_int]
  | TLN_Init =>
      Some [Argtype.c_int; Argtype.c_int; Argtype.c_int; Argtype.c_int; Argtype.c_int]
  | TLN_SetBGColor => Some [Argtype.c_ubyte; Argtype.c_ubyte; Argtype.c_ubyte]
  | TLN_SetBGColorFromTilemap | TLN_SetBGBitmap | TLN_ClonePalette | TLN_DeletePalette
  | TLN_GetSequencePackCount | TLN_GetSequence | TLN_DeleteSequence =>
      Some [Argtype.c_void_p]
  | TLN_SetTilemapTileset2 => Some [Argtype.c_void_p; Argtype.c_void_p; Argtype.c_int]
  | TLN_GetTilemapTile | TLN_SetTilemapTile =>
      Some [Argtype.c_void_p; Argtype.c_int; Argtype.c_int; Argtype.pointer_Tile]
  | TLN_SetPaletteColor =>
      Some [Argtype.c_void_p; Argtype.c_int; Argtype.c_ubyte; Argtype.c_ubyte;
            Argtype.c_ubyte]
  | TLN_SetLayer => Some [Argtype.c_int; Argtype.c_void_p; Argtype.c_void_p]
  | TLN_SetLayerTilemap | TLN_SetLayerBitmap | TLN_SetLayerPalette
  | TLN_SetSpriteSet => Some [Argtype.c_int; Argtype.c_void_p]
  | TLN_SetLayerPosition => Some [Argtype.c_int; Argtype.c_int; Argtype.c_int]
  | TLN_ConfigSprite => Some [Argtype.c_int; Argtype.c_void_p; Argtype.c_ushort]
  | TLN_SetSpritePicture | TLN_SetNextSprite | TLN_SetWorldPosition
  | TLN_SetSpritesMaskRegion => Some [Argtype.c_int; Argtype.c_int]
  | TLN_FindSpritesetSprite | TLN_FindSequence =>
      Some [Argtype.c_void_p; Argtype.c_char_p]
  | TLN_LoadPalette => Some [Argtype.c_char_p]
  | TLN_CreateWindow | TLN_CreateWindowThread => Some [Argtype.c_char_p; Argtype.c_int]
  | TLN_GetSequenceInfo => Some [Argtype.c_void_p; Argtype.pointer_SequenceInfo]
  | TLN_AddSequenceToPack => Some [Argtype.c_void_p; Argtype.c_void_p]
  end.

(** Whether [ctypes] converts a value to a declared parameter type
    ([T.from_param]).  An integer type takes an [int] or a [bool], of any
    size; [c_void_p] takes [None], an [int], [bytes], a [str] and a
    function pointer; [c_char_p] takes [None] and [bytes] only, not a
    [str]; a pointer to a structure takes [None] and the structure, which
    is a [Tile] or, for [SequenceInfo], the [bytes] of its name here. *)
Definition from_param (t : Argtype.t) (v : PyVal) : bool :=
  match t, v with
  | (Argtype.c_int | Argtype.c_ubyte | Argtype.c_ushort), (PyInt _ | PyBool _) => true
  | Argtype.c_void_p,
    (PyNone | PyInt _ | PyBool _ | PyStr _ | PyBytes _ | PyCallback _) => true
  | Argtype.c_char_p, (PyNone | PyBytes _) => true
  | Argtype.pointer_Tile, (PyNone | PyTile _ _) => true
  | Argtype.pointer_SequenceInfo, (PyNone | PyBytes _) => true
  | _, _ => false
  end.

(** The conversion of an argument without a declared type: a [float] is
    refused, and so is an [int] that fits neither the C [long] nor the
    [unsigned long], of 64 bits. *)
Definition default_param (v : PyVal) : bool :=
  match v with
  | PyFloat _ => false
  | PyInt z => (- 2 ^ 63 <=? z) && (z <? 2 ^ 64)
  | _ => true
  end.

(** What [ctypes] does with the arguments of a call before the library is
    entered: fewer arguments than declared types is a [TypeError]; each
    argument is converted to its declared type, the ones past the
    declaration by the default rule; one that does not convert is an
    [ArgumentError]. *)
Definition convert_params (f : NativeFn) (args : list PyVal) : Res unit :=
  match argtypes f with
  | None => if forallb default_param args then Normal tt else Raised ArgumentError
  | Some types =>
      if (length args <? length types)%nat then Raised TypeError
      else if forallb (fun tv => from_param (fst tv) (snd tv)) (zip types args)
              && forallb default_param (drop (length types) args)
           then Normal tt
           else Raised ArgumentError
  end.

(** A native library behind [ctypes]: only a call whose arguments convert
    reaches the library. *)
Definition ctypes {N : Type} (h : NativeFn -> list PyVal -> N -> Res Reply * N)
    (f : NativeFn) (args : list PyVal) (n : N) : Res Reply * N :=
  match convert_params f args with
  | Normal _ => h f args n
  | Raised e => (Raised e, n)
  end.

(** Truth value of an object, as [if ok:] takes it. *)
Definition truthy (v : PyVal) : bool :=
  match v with
  | PyNone => false
  | PyBool b => b
  | PyInt z => negb (z =? 0)
  | PyFloat (S754_zero _) => false
  | PyFloat _ => true
  | PyStr s | PyBytes s => negb (String.eqb s "")
  | PyTile _ _ | PyCallback _ => true
  end.

(** [_encode_string]: convert string to [c_char_p]. *)
Definition _encode_string (string : option string) : PyVal :=
  match string with
  | Some s => PyBytes s
  | None => PyNone
  end.

(** [_decode_string]: convert [c_char_p] to string. *)
Definition _decode_string {S : Type} (byte_array : PyVal) : M S (option string) :=
  match byte_array with
  | PyNone => mret None
  | PyBytes s => mret (Some s)
  | _ => raise AttributeError
  end.

(** A method of another object, run on that object [l]: its result and
    the object as the method left it. *)
Definition with_local {S L A : Type} (l : L) (m : M L A) : M S (A * L) :=
  fun s => prog_bind (m l)
    (fun '(ra, l') => match ra with
                      | Normal a => Done (Normal (a, l'), s)
                      | Raised e => Done (Raised e, s)
                      end).

(** ** More of [class Engine] *)

(** [Engine.set_world_position]: the result of a function declared to
    return nothing goes to [_raise_exception]. *)
Definition Engine_set_world_position {S : Type} (x y : PyVal) : M S unit :=
  ok <- native TLN_SetWorldPosition [x; y] ;;
  _raise_exception (ret ok).

(** [Engine.set_sprites_mask_region] *)
Definition Engine_set_sprites_mask_region {S : Type} (top bottom : PyVal) : M S unit :=
  ok <- native TLN_SetSpritesMaskRegion [top; bottom] ;;
  _raise_exception (ret ok).

(** ** More of [class Palette], and the palettes of layers and sprites *)

(** [Palette.__init__]: [owner] is [True] unless the caller says so. *)
Definition Palette_init (handle : PyVal) (owner : bool) : Palette :=
  {| palette_as_parameter := handle; palette_owner := owner |}.

(** The tail shared by the factory methods: wrap a handle that is not
    [None] as an owner, raise otherwise. *)
Definition wrap_palette {S : Type} (handle : PyVal) : M S (option Palette) :=
  match handle with
  | PyNone => _raise_exception (PyBool false) ;; mret None
  | h => mret (Some (Palette_init h true))
  end.

(** [Palette.create] *)
Definition Palette_create {S : Type} (num_entries : PyVal) : M S (option Palette) :=
  handle <- native TLN_CreatePalette [num_entries] ;;
  wrap_palette (ret handle).

(** [Palette.fromfile] *)
Definition Palette_fromfile {S : Type} (filename : option string) : M S (option Palette) :=
  handle <- native TLN_LoadPalette [_encode_string filename] ;;
  wrap_palette (ret handle).

(** [Palette.clone] *)
Definition Palette_clone {S : Type} (self : Palette) : M S (option Palette) :=
  handle <- native TLN_ClonePalette [palette_as_parameter self] ;;
  wrap_palette (ret handle).

(** [Palette.__del__] *)
Definition Palette_del {S : Type} (self : Palette) : M S unit :=
  if palette_owner self then
    ok <- native TLN_DeletePalette [palette_as_parameter self] ;;
    _raise_exception (ret ok)
  else mret tt.

(** [Layer.get_palette]: the wrapper is built with the default [owner]. *)
Definition Layer_get_palette : M Layer (option Palette) :=
  self <- layer_self ;;
  handle <- native TLN_GetLayerPalette [self] ;;
  wrap_palette (ret handle).

(** [Sprite.get_palette] *)
Definition Sprite_get_palette : M Sprite (option Palette) :=
  self <- sprite_self ;;
  handle <- native TLN_GetSpritePalette [self] ;;
  wrap_palette (ret handle).

(** ** [class Sequence] and [class SequencePack] *)

Record Sequence : Type := mkSequence
  { sequence_as_parameter : PyVal; sequence_owner : bool }.

(** [Sequence.__init__] *)
Definition Sequence_init (handle : PyVal) (owner : bool) : Sequence :=
  {| sequence_as_parameter := handle; sequence_owner := owner |}.

(** [Sequence.get_info]: the object acted upon is the [SequenceInfo] of the
    caller, of which the binding reads the [name] only; the native result
    is returned as it is. *)
Definition Sequence_get_info (self : Sequence) : M string PyVal :=
  info <- get ;;
  rep <- native TLN_GetSequenceInfo [sequence_as_parameter self; PyBytes info] ;;
  match written rep with
  | Some (PyBytes name) => put name
  | _ => mret tt
  end ;;
  mret (ret rep).

(** [Sequence.__del__] *)
Definition Sequence_del {S : Type} (self : Sequence) : M S unit :=
  if sequence_owner self then
    ok <- native TLN_DeleteSequence [sequence_as_parameter self] ;;
    _raise_exception (ret ok)
  else mret tt.

Record SequencePack : Type := mkSequencePack
  { sequencepack_as_parameter : PyVal;
    sequencepack_owner : bool;
    sequencepack_count : PyVal;
    sequences : gmap string Sequence }.

(** [SequencePack.get_sequence]: the wrapper does not own the sequence. *)
Definition SequencePack_get_sequence {S : Type} (self_handle index : PyVal)
  : M S (option Sequence) :=
  handle <- native TLN_GetSequence [self_handle; index] ;;
  match ret handle with
  | PyNone => _raise_exception (PyBool false) ;; mret None
  | h => mret (Some (Sequence_init h false))
  end.

(** [SequencePack.find_sequence]: the wrapper is built with the default
    [owner]. *)
Definition SequencePack_find_sequence {S : Type} (self_handle : PyVal)
    (name : option string) : M S (option Sequence) :=
  handle <- native TLN_FindSequence [self_handle; _encode_string name] ;;
  match ret handle with
  | PyNone => _raise_exception (PyBool false) ;; mret None
  | h => mret (Some (Sequence_init h true))
  end.

(** The loop of [SequencePack.__init__] over the indices left: the object
    acted upon is the dictionary being filled together with the one
    [SequenceInfo] the loop reuses. *)
Fixpoint load_sequences (self_handle : PyVal) (indices : list Z)
  : M (gmap string Sequence * string) unit :=
  match indices with
  | [] => mret tt
  | s :: rest =>
      found <- SequencePack_get_sequence self_handle (PyInt s) ;;
      match found with
      | None => raise AttributeError
      | Some sequence =>
          st <- get ;;
          r <- with_local (snd st) (Sequence_get_info sequence) ;;
          put (<[snd r := sequence]> (fst st), snd r) ;;
          load_sequences self_handle rest
      end
  end.

(** [SequencePack.__init__] *)
Definition SequencePack_init (handle : PyVal) (owner : bool) : M unit SequencePack :=
  cnt <- native TLN_GetSequencePackCount [handle] ;;
  match ret cnt with
  | PyInt c =>
      r <- with_local (∅, "") (load_sequences handle (py_range c)) ;;
      mret {| sequencepack_as_parameter := handle; sequencepack_owner := owner;
              sequencepack_count := ret cnt; sequences := fst (snd r) |}
  | PyBool b =>
      r <- with_local (∅, "") (load_sequences handle (py_range (if b then 1 else 0))) ;;
      mret {| sequencepack_as_parameter := handle; sequencepack_owner := owner;
              sequencepack_count := ret cnt; sequences := fst (snd r) |}
  | _ => raise TypeError
  end.

Definition set_sequences (v : gmap string Sequence) : M SequencePack unit :=
  fun self => Done (Normal tt,
    {| sequencepack_as_parameter := sequencepack_as_parameter self;
       sequencepack_owner := sequencepack_owner self;
       sequencepack_count := sequencepack_count self; sequences := v |}).

(** [SequencePack.add_sequence]: the name is read into a fresh
    [SequenceInfo], whose result is not looked at; the dictionary is
    updated when the native result is true. *)
Definition SequencePack_add_sequence (sequence : Sequence) : M SequencePack unit :=
  self <- get ;;
  r <- with_local "" (Sequence_get_info sequence) ;;
  ok <- native TLN_AddSequenceToPack
          [sequencepack_as_parameter self; sequence_as_parameter sequence] ;;
  (if truthy (ret ok)
   then set_sequences (<[snd r := sequence]> (sequences self))
   else mret tt) ;;
  _raise_exception (ret ok).

(** ** [class Window] and the module variables [_window], [_window_created] *)

(** A [Window] object; [num_frame], [width] and [height] are attributes
    the constructor does not set, so they can be missing.  The binding
    only ever stores an [int] in [num_frame]. *)
Record Window : Type := mkWindow
  { window_cb_sdl_func : PyVal;
    window_num_frame : option Z;
    window_width : option PyVal;
    window_height : option PyVal }.

(** [Window.__init__] *)
Definition Window_init : Window :=
  {| window_cb_sdl_func := PyNone; window_num_frame := None;
     window_width := None; window_height := None |}.

(** A module variable that holds a window: not bound yet (the source only
    annotates [_window]), or bound to [None] or to a reference to a
    window object. *)
Inductive Binding : Type :=
| Unbound
| Bound (v : option nat).

(** The module state the window methods act on: the two module variables
    and the window objects created so far, a reference being a position
    in that list. *)
Record ModuleState : Type := mkModuleState
  { _window : Binding;
    _window_created : bool;
    windows : list Window }.

(** The state when the module has been imported. *)
Definition module_loaded : ModuleState :=
  {| _window := Unbound; _window_created := false; windows := [] |}.

(** Reading the module variable [_window]. *)
Definition read_window : M ModuleState (option nat) :=
  st <- get ;;
  match _window st with
  | Unbound => raise NameError
  | Bound v => mret v
  end.

(** [_window = Window()]: a new object, to which the variable is bound. *)
Definition new_window : M ModuleState nat :=
  st <- get ;;
  put {| _window := Bound (Some (length (windows st)));
         _window_created := _window_created st;
         windows := windows st ++ [Window_init] |} ;;
  mret (length (windows st)).

(** An attribute assignment on the window object behind a reference. *)
Definition update_window (ref : nat) (f : Window -> Window) : M ModuleState unit :=
  st <- get ;;
  put {| _window := _window st; _window_created := _window_created st;
         windows := alter f ref (windows st) |}.

(** [obj.attr = value] or an attribute read on what [_window] holds:
    [None] has no such attribute. *)
Definition window_object (v : option nat) : M ModuleState nat :=
  match v with
  | Some ref => mret ref
  | None => raise AttributeError
  end.

Definition set_window_created : M ModuleState unit :=
  st <- get ;;
  put {| _window := _window st; _window_created := true; windows := windows st |}.

(** [Window.create]: the title is set first; an existing window is
    handed out again. *)
Definition Window_create (title : string) (overlay : option string) (flags : PyVal)
  : M ModuleState (option nat) :=
  native TLN_SetWindowTitle [_encode_string (Some title)] ;;
  st <- get ;;
  if _window_created st then read_window
  else
    ok <- native TLN_CreateWindow [_encode_string overlay; flags] ;;
    if is_True (ret ok) then
      new_window ;;
      w0 <- read_window ;;
      r0 <- window_object w0 ;;
      update_window r0 (fun w =>
        {| window_cb_sdl_func := window_cb_sdl_func w; window_num_frame := Some 0;
           window_width := window_width w; window_height := window_height w |}) ;;
      width <- native TLN_GetWindowWidth [] ;;
      w1 <- read_window ;;
      r1 <- window_object w1 ;;
      update_window r1 (fun w =>
        {| window_cb_sdl_func := window_cb_sdl_func w;
           window_num_frame := window_num_frame w;
           window_width := Some (ret width); window_height := window_height w |}) ;;
      height <- native TLN_GetWindowHeight [] ;;
      w2 <- read_window ;;
      r2 <- window_object w2 ;;
      update_window r2 (fun w =>
        {| window_cb_sdl_func := window_cb_sdl_func w;
           window_num_frame := window_num_frame w;
           window_width := window_width w; window_height := Some (ret height) |}) ;;
      set_window_created ;;
      read_window
    else
      _raise_exception (ret ok) ;;
      mret None.

(** [Window.create_threaded] *)
Definition Window_create_threaded (overlay : option string) (flags : PyVal)
  : M ModuleState (option nat) :=
  current <- read_window ;;
  match current with
  | Some ref => mret (Some ref)
  | None =>
      ok <- native TLN_CreateWindowThread [_encode_string overlay; flags] ;;
      if is_True (ret ok) then
        new_window ;;
        width <- native TLN_GetWindowWidth [] ;;
        w1 <- read_window ;;
        r1 <- window_object w1 ;;
        update_window r1 (fun w =>
          {| window_cb_sdl_func := window_cb_sdl_func w;
             window_num_frame := window_num_frame w;
             window_width := Some (ret width); window_height := window_height w |}) ;;
        height <- native TLN_GetWindowHeight [] ;;
        w2 <- read_window ;;
        r2 <- window_object w2 ;;
        update_window r2 (fun w =>
          {| window_cb_sdl_func := window_cb_sdl_func w;
             window_num_frame := window_num_frame w;
             window_width := window_width w; window_height := Some (ret height) |}) ;;
        read_window
      else
        _raise_exception (ret ok) ;;
        mret None
  end.

(** [Window.process] on the window behind [self]: the frame is drawn with
    the current number, the number goes up by one, and the result of
    [TLN_ProcessWindow] is returned. *)
Definition Window_process (self : nat) : M ModuleState PyVal :=
  st <- get ;;
  match windows st !! self with
  | None => raise AttributeError
  | Some w =>
      match window_num_frame w with
      | None => raise AttributeError
      | Some num_frame =>
          native TLN_DrawFrame [PyInt num_frame] ;;
          update_window self (fun w' =>
            {| window_cb_sdl_func := window_cb_sdl_func w';
               window_num_frame := Some (num_frame + 1);
               window_width := window_width w'; window_height := window_height w' |}) ;;
          active <- native TLN_ProcessWindow [] ;;
          mret (ret active)
      end
  end.

(** [Window.draw_frame]: deprecated, it does nothing. *)
Definition Window_draw_frame (self : nat) (num_frame : PyVal) : M ModuleState unit :=
  mret tt.

(** The calls a program can make on the window part of the module. *)
Inductive WindowCall : Type :=
| CallCreate (title : string) (overlay : option string) (flags : PyVal)
| CallCreateThreaded (overlay : option string) (flags : PyVal)
| CallProcess (self : nat)
| CallDrawFrame (self : nat) (num_frame : PyVal).

(** The program of a call, its result put aside. *)
Definition window_call (c : WindowCall) : M ModuleState unit :=
  match c with
  | CallCreate title overlay flags => Window_create title overlay flags ;; mret tt
  | CallCreateThreaded overlay flags => Window_create_threaded overlay flags ;; mret tt
  | CallProcess self => Window_process self ;; mret tt
  | CallDrawFrame self num_frame => Window_draw_frame self num_frame
  end.

(** ** Inputs of the stated properties *)

(** The lowercase hexadecimal digit of [d], for [0 <= d < 16]. *)
Definition hex_char (d : Z) : ascii :=
  ascii_of_nat (Z.to_nat (if d <? 10 then 48 + d else 87 + d)).

(** The two-digit lowercase hexadecimal writing of a colour component. *)
Definition hex2 (n : Z) : string :=
  String (hex_char (n / 16)) (String (hex_char (n mod 16)) EmptyString).

(** The css-style string of three components. *)
Definition css (r g b : Z) : string :=
  (String "#" (hex2 r ++ hex2 g ++ hex2 b))%string.

(** Sample wrapper objects; a handle is the address of the native object. *)
Definition a_palette : Palette := mkPalette (PyInt 4096) true.
Definition a_tilemap : Tilemap := mkTilemap (PyInt 8192) true.
Definition a_bitmap : Bitmap := mkBitmap (PyInt 12288) true.
Definition a_spriteset : Spriteset := mkSpriteset (PyInt 16384) true.

(** The binary64 floats 1.5, 1.25 and 0.75. *)
Definition float_1_5 : spec_float := S754_finite false 6755399441055744 (-52).
Definition float_1_25 : spec_float := S754_finite false 5629499534213120 (-52).
Definition float_0_75 : spec_float := S754_finite false 6755399441055744 (-53).

(** How many of the three content attributes of a layer are not [None]. *)
Definition content_count (l : Layer) : nat :=
  (length (option_list (tilemap l)) + length (option_list (bitmap l))
   + length (option_list (objectlist l)))%nat.

(** Two calls in a row on the same object. *)
Definition then_call {S A B : Type} (first : M S A) (second : M S B) : M S B :=
  first ;; second.

(** A compositor of two sprite slots, nothing assigned yet. *)
Definition two_sprites : SpriteCompositor.State :=
  SpriteCompositor.mkState
    [SpriteCompositor.mkSlot None 0 None false;
     SpriteCompositor.mkSlot None 0 None false] None 0.

(** The value of a finite float as a fraction: numerator and denominator. *)
Definition float_num (s : bool) (m : positive) (e : Z) : Z :=
  (if s then -1 else 1) * (Z.pos m * 2 ^ Z.max e 0).

Definition float_den (e : Z) : Z := 2 ^ Z.max (- e) 0.

(** The engine of the platformer sample, [Engine.create(400, 240, 2, 0, 20)],
    for a library of version 2.11.0 that puts its context at 4096. *)
Definition sample_engine : Engine :=
  {| engine_as_parameter := PyInt 4096;
     layers := [Layer_init 0; Layer_init 1];
     sprites := [];
     animations := map Animation_init (py_range 20);
     version := PyInt 133888;
     cb_raster_func := PyNone;
     cb_frame_func := PyNone;
     cb_blend_func := PyNone |}.

(** The native state a program leaves behind, and how it ended. *)
Definition native_after {N A : Type}
    (h : NativeFn -> list PyVal -> N -> Res Reply * N) (p : Prog A) (n : N) : N :=
  snd (fst (run h p n)).

Definition outcome {N S A : Type}
    (h : NativeFn -> list PyVal -> N -> Res Reply * N) (p : Prog (Res A * S)) (n : N)
  : Res A :=
  fst (fst (fst (run h p n))).

(** A tilemap store holding one 2 x 3 tilemap of empty cells at 8192. *)
Definition one_tilemap : TilemapStore.State :=
  TilemapStore.mkState
    {[ 8192 := TilemapStore.mkGrid 2 3 (replicate 6 (0, 0)) ]} 0.

(** A compositor of four visible sprites, chained 0, 1, 2, 3 so far. *)
Definition four_sprites : SpriteCompositor.State :=
  SpriteCompositor.mkState
    [SpriteCompositor.mkSlot (Some 16384) 0 (Some 1%nat) true;
     SpriteCompositor.mkSlot (Some 16384) 0 (Some 2%nat) true;
     SpriteCompositor.mkSlot (Some 16384) 0 (Some 3%nat) true;
     SpriteCompositor.mkSlot (Some 16384) 0 None true] (Some 0%nat) 0.

(** The raster invocations of [count] scanlines from [line] on. *)
Definition raster_calls (cb : option nat) (line : Z) (count : nat)
  : list FrameScheduler.Invocation :=
  match cb with
  | Some id => map (fun k => FrameScheduler.Raster id (line + Z.of_nat k)) (seq 0 count)
  | None => []
  end.

(** A scheduler of three scanlines without callbacks; its scene counts the
    callbacks it has seen and a line shows that count. *)
Definition three_lines : @FrameScheduler.State nat nat :=
  FrameScheduler.mkState 3 None None 0 0%nat [] [].

Definition counting (id : nat) (arg : Z) (seen : nat) : nat := S seen.

Definition show_count (seen : nat) (line : Z) : nat := seen.

(** A native library that gives the same answer to every call. *)
Definition answering (v : PyVal) (f : NativeFn) (args : list PyVal) (n : unit)
  : Res Reply * unit :=
  (reply v, n).

(** A native library never raises when each of its calls answers. *)
Definition never_raises {N : Type}
    (h : NativeFn -> list PyVal -> N -> Res Reply * N) : Prop :=
  forall f args n, exists r n', h f args n = (Normal r, n').

(** A layer that shows a bitmap of 320 x 240. *)
Definition bitmap_layer : Layer :=
  {| layer_index := 0; layer_as_parameter := 0;
     width := PyInt 320; height := PyInt 240;
     tilemap := None; bitmap := Some a_bitmap; objectlist := None |}.

Definition a_tileset : Tileset := mkTileset (PyInt 20480) true.

(** [str.isascii]: every character has a code below 128. *)
Definition isascii (s : string) : bool :=
  forallb (fun c => (nat_of_ascii c <? 128)%nat) (list_ascii_of_string s).

(** Every character, by code. *)
Definition all_ascii : list ascii := map ascii_of_nat (seq 0 256).

(** Whether a parsed colour component, if any, lies between -15 and 255. *)
Definition component_in_range (o : option Z) : bool :=
  match o with
  | Some z => (-15 <=? z) && (z <=? 255)
  | None => true
  end.

(** A call whose exception the caller catches: the program goes on with
    the object as the call left it. *)
Definition attempt {S A : Type} (m : M S A) : M S unit :=
  fun s => prog_bind (m s) (fun '(_, s') => Done (Normal tt, s')).

(** A session on the window part of the module: the calls one after the
    other, every exception caught. *)
Fixpoint session (calls : list WindowCall) : M ModuleState unit :=
  match calls with
  | [] => mret tt
  | c :: rest => attempt (window_call c) ;; session rest
  end.

(** [Window.process] called [k] times on the same window. *)
Fixpoint process_times (k : nat) (self : nat) : M ModuleState unit :=
  match k with
  | O => mret tt
  | Datatypes.S k' => Window_process self ;; process_times k' self
  end.

(** The frame numbers a trace handed to [TLN_DrawFrame]. *)
Definition drawn (evs : list Event) : list PyVal :=
  omap (fun e => match e with
                 | Called TLN_DrawFrame [v] _ => Some v
                 | _ => None
                 end) evs.

(** Every native call of a program is of a function in [P], and every
    result it can end with is in [Q], whatever the library answers. *)
Fixpoint prog_all {A : Type} (P : NativeFn -> Prop) (Q : A -> Prop) (p : Prog A)
  : Prop :=
  match p with
  | Done a => Q a
  | Call f _ k => P f /\ forall r, prog_all P Q (k r)
  | Print _ _ k => prog_all P Q k
  end.

(** The window object [Window.create] builds for a window of the given
    size. *)
Definition created_window (width height : PyVal) : Window :=
  {| window_cb_sdl_func := PyNone; window_num_frame := Some 0;
     window_width := Some width; window_height := Some height |}.

(** A module in which [_window] has been set to [None] from outside. *)
Definition window_cleared : ModuleState :=
  {| _window := Bound None; _window_created := false; windows := [] |}.


(** The module once that window is created. *)
Definition window_open : ModuleState :=
  {| _window := Bound (Some 0%nat); _window_created := true;
     windows := [created_window (PyInt 640) (PyInt 480)] |}.

(** The name [Sequence.get_info] leaves in a new [SequenceInfo]: the one
    the library wrote, or the empty name of the new structure. *)
Definition name_read (info : Reply) : string :=
  match written info with
  | Some (PyBytes name) => name
  | _ => ""
  end.

(** A wrapper handed out and dropped at once: its [__del__] runs. *)
Definition dropped {S : Type} (found : M S (option Sequence)) : M S unit :=
  s <- found ;;
  match s with
  | Some sequence => Sequence_del sequence
  | None => mret tt
  end.

(** A pack at 24576 that holds nothing yet. *)
Definition empty_pack : SequencePack :=
  {| sequencepack_as_parameter := PyInt 24576; sequencepack_owner := true;
     sequencepack_count := PyInt 0; sequences := ∅ |}.

Definition a_sequence : Sequence := mkSequence (PyInt 28672) true.

(** * Properties *)

(** ** [Color.fromstring] *)

Example css_example : css 28 0 140 = "#1c008c".
Proof. reflexivity. Qed.

Example int_of_str_prefix : int_of_str 16 " 0x_fF " = Some 255.
Proof. reflexivity. Qed.

Example int_of_str_bare_prefix : int_of_str 16 "0x" = None.
Proof. reflexivity. Qed.

Example int_of_str_underscores :
  int_of_str 16 "-1_0" = Some (-16) /\ int_of_str 16 "_1" = None
  /\ int_of_str 16 "1_" = None /\ int_of_str 16 "1__0" = None.
Proof. repeat split; reflexivity. Qed.

Example fromstring_short : Color_fromstring "#1c00" = Raised ValueError.
Proof. reflexivity. Qed.

(** Reading back the two digits of a component gives the component. *)
Lemma int_of_str_hex2 (n : Z) : 0 <= n <= 255 -> int_of_str 16 (hex2 n) = Some n.
Proof.
  intros Hn.
  assert (Hall : forallb
            (fun k => match int_of_str 16 (hex2 (Z.of_nat k)) with
                      | Some m => m =? Z.of_nat k
                      | None => false
                      end) (seq 0 256) = true) by (vm_compute; reflexivity).
  rewrite forallb_forall in Hall.
  specialize (Hall (Z.to_nat n)).
  rewrite Z2Nat.id in Hall by lia.
  assert (Hin : In (Z.to_nat n) (seq 0 256)) by (apply in_seq; lia).
  specialize (Hall Hin).
  destruct (int_of_str 16 (hex2 n)) as [m|]; [|discriminate].
  apply Z.eqb_eq in Hall. now subst.
Qed.

(** The three slices of a css string are the three components' digits. *)
Lemma css_slices (r g b : Z) :
  slice 1 3 (css r g b) = hex2 r /\ slice 3 5 (css r g b) = hex2 g
  /\ slice 5 7 (css r g b) = hex2 b.
Proof. repeat split; reflexivity. Qed.

(** C10: for all r, g, b in 0..255, [Color.fromstring] applied to ['#']
    followed by the two-digit lowercase hexadecimal writings of r, g and b
    returns the colour whose fields are r, g and b. *)
Theorem Color_fromstring_roundtrip (r g b : Z) :
  0 <= r <= 255 -> 0 <= g <= 255 -> 0 <= b <= 255 ->
  Color_fromstring (css r g b) = Normal (mkColor (PyInt r) (PyInt g) (PyInt b)).
Proof.
  intros Hr Hg Hb. unfold Color_fromstring.
  destruct (css_slices r g b) as (-> & -> & ->).
  now rewrite !int_of_str_hex2.
Qed.

Lemma Color_fromstring_roundtrip_witness :
  0 <= 28 <= 255 /\ 0 <= 0 <= 255 /\ 0 <= 140 <= 255 /\
  Color_fromstring "#1c008c" = Normal (mkColor (PyInt 28) (PyInt 0) (PyInt 140)).
Proof.
  split; [lia|]. split; [lia|]. split; [lia|].
  apply (Color_fromstring_roundtrip 28 0 140); lia.
Defined.

(** ** Error handling: [_raise_exception] *)

Section ErrorHandling.
Context {S N : Type}.
Variable h : NativeFn -> list PyVal -> N -> Res Reply * N.

(** A result that is [True] lets the caller go on: no exception, no call. *)
Lemma raise_exception_True (result : PyVal) (s : S) (n : N) :
  is_True result = true ->
  run h (_raise_exception result s) n = (Normal tt, s, n, []).
Proof. intros H. unfold _raise_exception. now rewrite H. Qed.

(** Any other result: the last-error code is read, then its text, and the
    decoded text is the payload of the exception. *)
Lemma raise_exception_raises (result : PyVal) (s : S) (n n1 n2 : N)
    (e1 e2 : Reply) (msg : string) :
  is_True result = false ->
  h TLN_GetLastError [] n = (Normal e1, n1) ->
  h TLN_GetErrorString [ret e1] n1 = (Normal e2, n2) ->
  ret e2 = PyBytes msg ->
  run h (_raise_exception result s) n =
    (Raised (TilengineException msg), s, n2,
     [Called TLN_GetLastError [] (Normal e1);
      Called TLN_GetErrorString [ret e1] (Normal e2)]).
Proof.
  intros H H1 H2 Hmsg. unfold _raise_exception. rewrite H. cbn.
  rewrite H1. cbn. rewrite H2. cbn. now rewrite Hmsg.
Qed.

(** Whatever the native library answers afterwards, a result that is not
    [True] never lets [_raise_exception] return, and the object at hand is
    left as it was. *)
Lemma raise_exception_no_return (result : PyVal) (s : S) (n : N) :
  is_True result = false ->
  exists e n' evs, run h (_raise_exception result s) n = (Raised e, s, n', evs).
Proof.
  intros H. unfold _raise_exception. rewrite H. cbn.
  destruct (h TLN_GetLastError [] n) as [[e1|x1] n1]; cbn; [|eauto].
  destruct (h TLN_GetErrorString [ret e1] n1) as [[e2|x2] n2]; cbn; [|eauto].
  destruct (ret e2); cbn; eauto.
Qed.

(** Running a sequence: the first program, then the second from where the
    first arrived; the events follow one another. *)
Lemma run_prog_bind {A B : Type} (p : Prog A) (k : A -> Prog B) (n : N) :
  run h (prog_bind p k) n =
    (let '(a, n1, evs1) := run h p n in
     let '(b, n2, evs2) := run h (k a) n1 in (b, n2, evs1 ++ evs2)).
Proof.
  revert n. induction p as [a|f args kk IH|fmt args kk IH]; intros n; cbn.
  - now destruct (run h (k a) n) as [[b n2] evs2].
  - destruct (h f args n) as [r0 n0]. rewrite IH.
    destruct (run h (kk r0) n0) as [[a n1] evs1].
    now destruct (run h (k a) n1) as [[b n2] evs2].
  - rewrite IH. destruct (run h kk n) as [[a n1] evs1].
    now destruct (run h (k a) n1) as [[b n2] evs2].
Qed.

(** Running [m] and then [k] when [m] ends normally. *)
Lemma run_mbind_normal {A B : Type} (m : M S A) (k : A -> M S B)
    (s s1 : S) (n n1 : N) (a : A) (evs : list Event) :
  run h (m s) n = (Normal a, s1, n1, evs) ->
  run h (mbind m k s) n =
    (let '(rb, n2, evs2) := run h (k a s1) n1 in (rb, n2, evs ++ evs2)).
Proof.
  unfold mbind. generalize (m s) as p. intros p. revert n evs.
  induction p as [[ra s0]|f args kk IH|fmt args kk IH]; intros n evs; cbn.
  - intros [= -> -> -> <-]. now destruct (run h (k a s1) n1) as [[rb n2] evs2].
  - destruct (h f args n) as [r0 n0].
    destruct (run h (kk r0) n0) as [[x n2] evs0] eqn:Hk.
    intros [= -> -> <-]. rewrite (IH r0 n0 evs0 Hk).
    now destruct (run h (k a s1) n1) as [[rb n3] evs3].
  - destruct (run h kk n) as [[x n2] evs0] eqn:Hk.
    intros [= -> -> <-]. rewrite (IH n evs0 Hk).
    now destruct (run h (k a s1) n1) as [[rb n3] evs3].
Qed.

(** An exception of [m] ends the sequence. *)
Lemma run_mbind_raised {A B : Type} (m : M S A) (k : A -> M S B)
    (s s1 : S) (n n1 : N) (e : PyExn) (evs : list Event) :
  run h (m s) n = (Raised e, s1, n1, evs) ->
  run h (mbind m k s) n = (Raised e, s1, n1, evs).
Proof.
  unfold mbind. generalize (m s) as p. intros p. revert n evs.
  induction p as [[ra s0]|f args kk IH|fmt args kk IH]; intros n evs; cbn.
  - now intros [= -> -> -> <-].
  - destruct (h f args n) as [r0 n0].
    destruct (run h (kk r0) n0) as [[x n2] evs0] eqn:Hk.
    intros [= -> -> <-]. now rewrite (IH r0 n0 evs0 Hk).
  - destruct (run h kk n) as [[x n2] evs0] eqn:Hk.
    intros [= -> -> <-]. now rewrite (IH n evs0 Hk).
Qed.

End ErrorHandling.

(** ** Calls that check their result *)

(** A binding call that hands its native result to [_raise_exception], as
    [Palette.set_color] does, never returns normally when that result is
    not [True]; the last-error slot is read after the failing call, and
    when it and the error text are delivered the call raises
    [TilengineException] with the decoded text as payload. *)
Lemma failing_result_raises {S N : Type}
    (h : NativeFn -> list PyVal -> N -> Res Reply * N)
    (f : NativeFn) (args : list PyVal) (s : S) (n n0 : N) (r0 : Reply) :
  h f args n = (Normal r0, n0) ->
  is_True (ret r0) = false ->
  (exists e n' evs,
      run h ((ok <- native f args ;; _raise_exception (ret ok)) s) n
      = (Raised e, s, n', evs))
  /\ (forall (e1 e2 : Reply) (n1 n2 : N) (msg : string),
        h TLN_GetLastError [] n0 = (Normal e1, n1) ->
        h TLN_GetErrorString [ret e1] n1 = (Normal e2, n2) ->
        ret e2 = PyBytes msg ->
        run h ((ok <- native f args ;; _raise_exception (ret ok)) s) n
        = (Raised (TilengineException msg), s, n2,
           [Called f args (Normal r0);
            Called TLN_GetLastError [] (Normal e1);
            Called TLN_GetErrorString [ret e1] (Normal e2)])).
Proof.
  intros Hcall Hfail.
  assert (Hnative : run h (native (S:=S) f args s) n
                    = (Normal r0, s, n0, [Called f args (Normal r0)])).
  { cbn. now rewrite Hcall. }
  split.
  - destruct (raise_exception_no_return h (ret r0) s n0 Hfail) as (e & n' & evs & He).
    exists e, n', (Called f args (Normal r0) :: evs).
    rewrite (run_mbind_normal h _ _ _ _ _ _ _ _ Hnative). now rewrite He.
  - intros e1 e2 n1 n2 msg H1 H2 Hmsg.
    rewrite (run_mbind_normal h _ _ _ _ _ _ _ _ Hnative).
    now rewrite (raise_exception_raises h _ s n0 n1 n2 e1 e2 msg Hfail H1 H2 Hmsg).
Qed.

Lemma failing_result_raises_witness :
  run scripted
    (Palette_set_color a_palette (PyInt 300) (mkColor (PyInt 1) (PyInt 2) (PyInt 3)) tt)
    [reply (PyBool false); reply (PyInt 5);
     reply (PyBytes "Picture or tile index out of range")]
  = (Raised (TilengineException "Picture or tile index out of range"), tt, [],
     [Called TLN_SetPaletteColor [PyInt 4096; PyInt 300; PyInt 1; PyInt 2; PyInt 3]
        (reply (PyBool false));
      Called TLN_GetLastError [] (reply (PyInt 5));
      Called TLN_GetErrorString [PyInt 5]
        (reply (PyBytes "Picture or tile index out of range"))]).
Proof.
  refine (proj2 (failing_result_raises scripted TLN_SetPaletteColor
                   [PyInt 4096; PyInt 300; PyInt 1; PyInt 2; PyInt 3] tt
                   [reply (PyBool false); reply (PyInt 5);
                    reply (PyBytes "Picture or tile index out of range")]
                   [reply (PyInt 5);
                    reply (PyBytes "Picture or tile index out of range")]
                   (mkReply (PyBool false) None) _ _)
                (mkReply (PyInt 5) None)
                (mkReply (PyBytes "Picture or tile index out of range") None)
                [reply (PyBytes "Picture or tile index out of range")] []
                "Picture or tile index out of range" _ _ _); reflexivity.
Defined.

(** C4: [Engine.set_background_color] with a tilemap the library refuses.
    The call passes [ctypes], the library answers [False], and the method
    returns normally: the result is not handed to [_raise_exception] and
    the last-error slot is not read.  Its sibling
    [Engine.set_background_bitmap] raises on the same answer. *)
Theorem set_background_color_unchecked :
  run (ctypes scripted) (Engine_set_background_color (ParamTilemap a_tilemap) tt)
    [reply (PyBool false); reply (PyInt 7); reply (PyBytes "Invalid Tilemap reference")]
  = (Normal tt, tt,
     [reply (PyInt 7); reply (PyBytes "Invalid Tilemap reference")],
     [Called TLN_SetBGColorFromTilemap [PyInt 8192] (reply (PyBool false))])
  /\ run (ctypes scripted) (Engine_set_background_bitmap (Some a_bitmap) tt)
       [reply (PyBool false); reply (PyInt 12); reply (PyBytes "Invalid Bitmap reference")]
     = (Raised (TilengineException "Invalid Bitmap reference"), tt, [],
        [Called TLN_SetBGBitmap [PyInt 12288] (reply (PyBool false));
         Called TLN_GetLastError [] (reply (PyInt 12));
         Called TLN_GetErrorString [PyInt 12] (reply (PyBytes "Invalid Bitmap reference"))]).
Proof. split; reflexivity. Qed.

(** Asked directly, the library gets the same call and the sibling raises
    as well. *)
Example set_background_bitmap_checked :
  outcome scripted (Engine_set_background_bitmap (Some a_bitmap) tt)
    [reply (PyBool false); reply (PyInt 12); reply (PyBytes "Invalid Bitmap reference")]
  = Raised (TilengineException "Invalid Bitmap reference").
Proof. reflexivity. Qed.

(** ** [Sprite.set_picture] *)

(** A [str] never gets past [ctypes] as the second argument of
    [TLN_FindSpritesetSprite], declared [c_char_p]. *)
Lemma find_sprite_refuses_str (handle : PyVal) (name : string) :
  convert_params TLN_FindSpritesetSprite [handle; PyStr name] = Raised ArgumentError.
Proof.
  unfold convert_params. cbn. now rewrite andb_false_r.
Qed.

(** C9: [Sprite.set_picture] with a name never returns normally.  The name
    is handed to [TLN_FindSpritesetSprite] as a [str], without
    [_encode_string], and its parameter is declared [c_char_p]: [ctypes]
    raises [ArgumentError] before the library is entered, whatever the
    library, the sprite and the name, found or not.  The sprite object is
    unchanged and the picture setter is not called. *)
Theorem Sprite_set_picture_name_raises {N : Type}
    (h : NativeFn -> list PyVal -> N -> Res Reply * N)
    (self : Sprite) (name : string) (n : N) :
  run (ctypes h) (Sprite_set_picture (PyStr name) self) n
  = (Raised ArgumentError, self, n,
     [Called TLN_FindSpritesetSprite
        [as_parameter spriteset_as_parameter (spriteset self); PyStr name]
        (Raised ArgumentError)]).
Proof.
  unfold Sprite_set_picture. cbn. unfold ctypes.
  now rewrite find_sprite_refuses_str.
Qed.

(** The name "hero" on a sprite of a spriteset that has no such picture:
    the library, which would answer -1, is not asked. *)
Example set_picture_name_refused :
  run (ctypes scripted)
    (Sprite_set_picture (PyStr "hero")
       {| sprite_index := 0; sprite_as_parameter := 0; spriteset := Some a_spriteset |})
    [reply (PyInt (-1))]
  = (Raised ArgumentError,
     {| sprite_index := 0; sprite_as_parameter := 0; spriteset := Some a_spriteset |},
     [reply (PyInt (-1))],
     [Called TLN_FindSpritesetSprite [PyInt 16384; PyStr "hero"] (Raised ArgumentError)]).
Proof. reflexivity. Qed.

(** The sibling [SequencePack.find_sequence] encodes the name, which
    [ctypes] accepts. *)
Example find_sequence_name_accepted :
  convert_params TLN_FindSequence [PyInt 24576; _encode_string (Some "walk")] = Normal tt.
Proof. reflexivity. Qed.

(** With an argument that is neither an [int] nor a [str],
    [Sprite.set_picture] returns at once: no native call, the sprite as it
    was. *)
Lemma Sprite_set_picture_other_type {N : Type}
    (h : NativeFn -> list PyVal -> N -> Res Reply * N)
    (self : Sprite) (picture : PyVal) (n : N) :
  (forall z, picture <> PyInt z) -> (forall s, picture <> PyStr s) ->
  run (ctypes h) (Sprite_set_picture picture self) n = (Normal tt, self, n, []).
Proof.
  intros Hint Hstr. destruct picture; try reflexivity.
  - now destruct (Hint z).
  - now destruct (Hstr s).
Qed.

(** A [bool] is not an [int] for [type(picture) is int]: nothing happens. *)
Example set_picture_bool :
  run scripted (Sprite_set_picture (PyBool true) (Sprite_init 0)) []
  = (Normal tt, Sprite_init 0, [], []).
Proof. reflexivity. Qed.

(** An index goes to the native setter, and its failure is raised. *)
Example set_picture_index_fails :
  run scripted (Sprite_set_picture (PyInt 99) (Sprite_init 0))
    [reply (PyBool false); reply (PyInt 5);
     reply (PyBytes "Picture or tile index out of range")]
  = (Raised (TilengineException "Picture or tile index out of range"),
     Sprite_init 0, [],
     [Called TLN_SetSpritePicture [PyInt 0; PyInt 99] (reply (PyBool false));
      Called TLN_GetLastError [] (reply (PyInt 5));
      Called TLN_GetErrorString [PyInt 5]
        (reply (PyBytes "Picture or tile index out of range"))]).
Proof. reflexivity. Qed.

(** ** Layer contents *)

Section LayerContents.
Context {N : Type}.
Variable h : NativeFn -> list PyVal -> N -> Res Reply * N.

(** The failure branch of the three methods, [_raise_exception()] followed
    by the implicit [return None], never returns. *)
Lemma raise_then_none_no_return {S : Type} (s s' : S) (n n' : N) (v : PyVal)
    (evs : list Event) :
  run h ((_raise_exception (PyBool false) ;; mret PyNone) s) n
  <> (Normal v, s', n', evs).
Proof.
  destruct (raise_exception_no_return h (PyBool false) s n eq_refl)
    as (e & n1 & evs1 & He).
  now rewrite (run_mbind_raised h _ _ _ _ _ _ _ _ He).
Qed.

Local Arguments _raise_exception : simpl never.

Ltac no_return :=
  match goal with
  | |- context [run h ?p ?m] =>
      let Hr := fresh "Hr" in
      destruct (run h p m) as [[[[?|?] ?] ?] ?] eqn:Hr; try discriminate;
      exfalso; exact (raise_then_none_no_return _ _ _ _ _ _ Hr)
  end.

Ltac native_step :=
  match goal with
  | |- context [h ?f ?args ?n] =>
      let rep := fresh "rep" in let e := fresh "e" in let n1 := fresh "n" in
      destruct (h f args n) as [[rep|e] n1]; cbn; try discriminate
  end.

(** X1: a successful [Layer.set_tilemap] leaves the tilemap as the only
    content. *)
Lemma Layer_set_tilemap_exclusive (self self' : Layer) (tm : Tilemap)
    (n n' : N) (v : PyVal) (evs : list Event) :
  run h (Layer_set_tilemap (Some tm) self) n = (Normal v, self', n', evs) ->
  tilemap self' = Some tm /\ bitmap self' = None /\ objectlist self' = None.
Proof.
  unfold Layer_set_tilemap. cbn. native_step.
  destruct (is_True (ret rep)) eqn:Hok; cbn.
  - do 2 native_step. now intros [= <- <- <- <-].
  - no_return.
Qed.

(** X2: a successful [Layer.set_bitmap] leaves the bitmap as the only
    content. *)
Lemma Layer_set_bitmap_exclusive (self self' : Layer) (bm : Bitmap)
    (n n' : N) (v : PyVal) (evs : list Event) :
  run h (Layer_set_bitmap (Some bm) self) n = (Normal v, self', n', evs) ->
  tilemap self' = None /\ bitmap self' = Some bm /\ objectlist self' = None.
Proof.
  unfold Layer_set_bitmap. cbn. native_step.
  destruct (is_True (ret rep)) eqn:Hok; cbn.
  - do 2 native_step. now intros [= <- <- <- <-].
  - no_return.
Qed.

(** A successful [Layer.setup] assigns the tilemap and leaves the other
    two attributes as they were. *)
Lemma Layer_setup_keeps_others (self self' : Layer) (tm : option Tilemap)
    (ts : option Tileset) (n n' : N) (v : PyVal) (evs : list Event) :
  run h (Layer_setup tm ts self) n = (Normal v, self', n', evs) ->
  tilemap self' = tm /\ bitmap self' = bitmap self
  /\ objectlist self' = objectlist self.
Proof.
  unfold Layer_setup. cbn. native_step.
  destruct (is_True (ret rep)) eqn:Hok; cbn.
  - do 2 native_step. destruct ts as [t|]; cbn.
    + destruct tm as [m|]; cbn; [|discriminate].
      native_step. rewrite run_prog_bind.
      destruct (is_True (ret rep2)) eqn:Hok2.
      * rewrite (raise_exception_True h _ _ _ Hok2). cbn.
        now intros [= <- <- <- <-].
      * match goal with
        | |- context [run h (_raise_exception ?v ?st) ?m] =>
            destruct (raise_exception_no_return h v st m Hok2)
              as (e & n4 & evs4 & ->)
        end.
        discriminate.
    + now intros [= <- <- <- <-].
  - no_return.
Qed.

End LayerContents.

(** C1 (the code departs from it): after [set_bitmap] has made the layer a
    bitmap layer, a successful [Layer.setup] assigns the tilemap and does
    not clear the bitmap, so two of the three content attributes are set;
    [set_tilemap] on the same layer leaves exactly one. *)
Theorem Layer_setup_after_set_bitmap :
  let script := [reply (PyBool true); reply (PyInt 320); reply (PyInt 240);
                 reply (PyBool true); reply (PyInt 512); reply (PyInt 256)] in
  let after_setup :=
    run scripted
      (then_call (Layer_set_bitmap (Some a_bitmap)) (Layer_setup (Some a_tilemap) None)
         (Layer_init 0)) script in
  let after_set_tilemap :=
    run scripted
      (then_call (Layer_set_bitmap (Some a_bitmap)) (Layer_set_tilemap (Some a_tilemap))
         (Layer_init 0)) script in
  fst (fst after_setup)
  = (Normal (PyBool true),
     {| layer_index := 0; layer_as_parameter := 0;
        width := PyInt 512; height := PyInt 256;
        tilemap := Some a_tilemap; bitmap := Some a_bitmap; objectlist := None |})
  /\ content_count (snd (fst (fst after_setup))) = 2%nat
  /\ content_count (snd (fst (fst after_set_tilemap))) = 1%nat.
Proof. repeat split. Qed.

(** ** Sprite attributes on a failing call *)

Section SpriteAttributes.
Context {N : Type}.
Variable h : NativeFn -> list PyVal -> N -> Res Reply * N.

(** X5: whatever the native result, once [TLN_ConfigSprite] has answered
    [Sprite.setup] has already stored its argument in [self.spriteset]. *)
Lemma Sprite_setup_assigns_first (self : Sprite) (ss : option Spriteset)
    (flags : PyVal) (n n0 : N) (rep : Reply) :
  h TLN_ConfigSprite
    [PyInt (sprite_as_parameter self); as_parameter spriteset_as_parameter ss; flags] n
  = (Normal rep, n0) ->
  exists res n' evs,
    run h (Sprite_setup ss flags self) n = (res, n', evs)
    /\ spriteset (snd res) = ss
    /\ (is_True (ret rep) = false -> exists e, fst res = Raised e).
Proof.
  intros Hcall. unfold Sprite_setup. cbn. rewrite Hcall. cbn.
  destruct (is_True (ret rep)) eqn:Hok.
  - rewrite (raise_exception_True h _ _ _ Hok).
    do 3 eexists. split; [reflexivity|]. split; [reflexivity|discriminate].
  - match goal with
    | |- context [run h (_raise_exception ?v ?st) ?m] =>
        destruct (raise_exception_no_return h v st m Hok) as (e & n1 & evs1 & ->)
    end.
    do 3 eexists. split; [reflexivity|]. split; [reflexivity|eauto].
Qed.

(** X6: the same holds for [Sprite.set_spriteset]: its argument is stored
    in [self.spriteset] before the native result is checked. *)
Lemma Sprite_set_spriteset_assigns_first (self : Sprite) (ss : option Spriteset)
    (n n0 : N) (rep : Reply) :
  h TLN_SetSpriteSet
    [PyInt (sprite_as_parameter self); as_parameter spriteset_as_parameter ss] n
  = (Normal rep, n0) ->
  exists res n' evs,
    run h (Sprite_set_spriteset ss self) n = (res, n', evs)
    /\ spriteset (snd res) = ss
    /\ (is_True (ret rep) = false -> exists e, fst res = Raised e).
Proof.
  intros Hcall. unfold Sprite_set_spriteset. cbn. rewrite Hcall. cbn.
  destruct (is_True (ret rep)) eqn:Hok.
  - rewrite (raise_exception_True h _ _ _ Hok).
    do 3 eexists. split; [reflexivity|]. split; [reflexivity|discriminate].
  - match goal with
    | |- context [run h (_raise_exception ?v ?st) ?m] =>
        destruct (raise_exception_no_return h v st m Hok) as (e & n1 & evs1 & ->)
    end.
    do 3 eexists. split; [reflexivity|]. split; [reflexivity|eauto].
Qed.

End SpriteAttributes.

(** C2 (the code departs from it): on an engine of two sprites,
    [Sprite(5).setup(spriteset)] fails with the index error, the native
    slots are untouched, and yet the failing call has changed the Python
    attribute [spriteset] from [None] to its argument; [set_spriteset] does
    the same. *)
Theorem Sprite_setup_invalid_index :
  let before := Sprite_init 5 in
  let failed :=
    (Raised (A:=unit) (TilengineException "Sprite index out of range"),
     {| sprite_index := 5; sprite_as_parameter := 5; spriteset := Some a_spriteset |}) in
  spriteset before = None
  /\ (let '(res, native, _) :=
        run SpriteCompositor.handler
          (Sprite_setup (Some a_spriteset) (PyInt 0) before) two_sprites in
      res = failed
      /\ SpriteCompositor.slots native = SpriteCompositor.slots two_sprites
      /\ SpriteCompositor.first native = SpriteCompositor.first two_sprites
      /\ SpriteCompositor.last_error native = Error.IDX_SPRITE)
  /\ (let '(res, native, _) :=
        run SpriteCompositor.handler
          (Sprite_set_spriteset (Some a_spriteset) before) two_sprites in
      res = failed
      /\ SpriteCompositor.slots native = SpriteCompositor.slots two_sprites).
Proof. cbv zeta. split; [reflexivity|]. split; vm_compute; repeat split. Qed.

(** ** [Layer.set_position] *)

(** [int] of a finite float is the quotient of its numerator by its
    denominator, rounded toward zero. *)
Lemma int_of_float_truncates (s : bool) (m : positive) (e : Z) :
  int_of_float (S754_finite s m e) = Normal (Z.quot (float_num s m e) (float_den e)).
Proof.
  unfold int_of_float, float_num, float_den. f_equal.
  assert (Hmag : Z.shiftl (Z.pos m) e
                 = Z.quot (Z.pos m * 2 ^ Z.max e 0) (2 ^ Z.max (- e) 0)).
  { destruct (Z.le_gt_cases 0 e) as [He|He].
    - rewrite Z.shiftl_mul_pow2 by lia.
      rewrite (Z.max_l e 0), (Z.max_r (- e) 0) by lia.
      now rewrite Z.pow_0_r, Z.quot_1_r.
    - rewrite Z.shiftl_div_pow2 by lia.
      rewrite (Z.max_r e 0), (Z.max_l (- e) 0) by lia.
      rewrite Z.pow_0_r, Z.mul_1_r.
      rewrite Z.quot_div_nonneg; [reflexivity|lia|].
      apply Z.pow_pos_nonneg; lia. }
  destruct s.
  - rewrite Hmag. replace (-1 * (Z.pos m * 2 ^ Z.max e 0))
      with (- (Z.pos m * 2 ^ Z.max e 0)) by lia.
    rewrite Z.quot_opp_l; [reflexivity|].
    apply Z.pow_nonzero; lia.
  - rewrite Hmag. f_equal. lia.
Qed.

Example int_of_float_examples :
  int_of_float float_1_5 = Normal 1 /\ int_of_float float_1_25 = Normal 1
  /\ int_of_float float_0_75 = Normal 0
  /\ int_of_float (S754_finite true 6755399441055744 (-52)) = Normal (-1)
  /\ int_of_float S754_nan = Raised ValueError
  /\ int_of_float (S754_infinity false) = Raised OverflowError.
Proof. repeat split. Qed.

(** C3, as stated, fails: the positions (1.5, 0.75) and (1.25, 0.75) reach
    the native library as the same integers (1, 0), the fractions being
    dropped by [int], and the call raises when the native result is not
    [True]. *)
Lemma Layer_set_position_drops_fraction :
  run scripted
    (Layer_set_position (PyFloat float_1_5) (PyFloat float_0_75) (Layer_init 0))
    [reply (PyBool true)]
  = (Normal tt, Layer_init 0, [],
     [Called TLN_SetLayerPosition [PyInt 0; PyInt 1; PyInt 0] (reply (PyBool true))])
  /\ run scripted
       (Layer_set_position (PyFloat float_1_25) (PyFloat float_0_75) (Layer_init 0))
       [reply (PyBool true)]
     = (Normal tt, Layer_init 0, [],
        [Called TLN_SetLayerPosition [PyInt 0; PyInt 1; PyInt 0] (reply (PyBool true))])
  /\ float_1_5 <> float_1_25
  /\ fst (fst (run scripted
         (Layer_set_position (PyFloat float_1_5) (PyFloat float_0_75) (Layer_init 7))
         [reply (PyBool false); reply (PyInt 2);
          reply (PyBytes "Layer index out of range")]))
     = (Raised (TilengineException "Layer index out of range"), Layer_init 7).
Proof.
  split; [reflexivity|]. split; [reflexivity|]. split; [discriminate|reflexivity].
Qed.

(** C3 (amended): for finite fractional coordinates [Layer.set_position]
    forwards to the native call the integers obtained by rounding each
    coordinate toward zero; it returns normally when the native result is
    [True] and raises otherwise, leaving the layer object as it was. *)
Theorem Layer_set_position_forwards_int {N : Type}
    (h : NativeFn -> list PyVal -> N -> Res Reply * N) (self : Layer)
    (sx sy : bool) (mx my : positive) (ex ey : Z) (n n0 : N) (rep : Reply) :
  let ix := Z.quot (float_num sx mx ex) (float_den ex) in
  let iy := Z.quot (float_num sy my ey) (float_den ey) in
  let call := [PyInt (layer_as_parameter self); PyInt ix; PyInt iy] in
  let program :=
    Layer_set_position (PyFloat (S754_finite sx mx ex)) (PyFloat (S754_finite sy my ey))
      self in
  h TLN_SetLayerPosition call n = (Normal rep, n0) ->
  (is_True (ret rep) = true ->
   run h program n
   = (Normal tt, self, n0, [Called TLN_SetLayerPosition call (Normal rep)]))
  /\ (is_True (ret rep) = false ->
      exists e n' evs,
        run h program n
        = (Raised e, self, n', Called TLN_SetLayerPosition call (Normal rep) :: evs)).
Proof.
  intros ix iy call program Hcall. subst program.
  unfold Layer_set_position, py_int.
  rewrite !int_of_float_truncates. cbn.
  fold ix iy. fold call. rewrite Hcall. cbn.
  split; intros Hok.
  - now rewrite (raise_exception_True h _ _ _ Hok).
  - destruct (raise_exception_no_return h (ret rep) self n0 Hok)
      as (e & n1 & evs1 & He).
    exists e, n1, evs1. now rewrite He.
Qed.

Lemma Layer_set_position_forwards_int_witness :
  run scripted
    (Layer_set_position (PyFloat float_1_5) (PyFloat float_0_75) (Layer_init 0))
    [reply (PyBool true)]
  = (Normal tt, Layer_init 0, [],
     [Called TLN_SetLayerPosition [PyInt 0; PyInt 1; PyInt 0] (reply (PyBool true))]).
Proof.
  refine (proj1 (Layer_set_position_forwards_int scripted (Layer_init 0)
                   false false 6755399441055744 6755399441055744 (-52) (-53)
                   [reply (PyBool true)] [] (mkReply (PyBool true) None) _) _);
    reflexivity.
Defined.

(** ** [Engine.create] *)

Lemma py_range_length (n : Z) : length (py_range n) = Z.to_nat n.
Proof. unfold py_range. now rewrite length_map, length_seq. Qed.

Lemma py_range_lookup (n i : Z) : 0 <= i < n -> py_range n !! Z.to_nat i = Some i.
Proof.
  intros Hi. unfold py_range. rewrite list_lookup_fmap.
  rewrite lookup_seq_lt by lia. cbn. f_equal. lia.
Qed.

Section EngineCreate.
Context {N : Type}.
Variable h : NativeFn -> list PyVal -> N -> Res Reply * N.

Local Arguments _raise_exception : simpl never.

(** [_raise_exception()] with its default argument never returns, so
    nothing that follows it is reached. *)
Lemma raise_default_no_return {S B : Type} (k : M S B) (s s' : S) (n n' : N)
    (v : B) (evs : list Event) :
  run h ((_raise_exception (PyBool false) ;; k) s) n <> (Normal v, s', n', evs).
Proof.
  destruct (raise_exception_no_return h (PyBool false) s n eq_refl)
    as (e & n1 & evs1 & He).
  now rewrite (run_mbind_raised h _ _ _ _ _ _ _ _ He).
Qed.

(** What [Engine.__init__] builds when it returns. *)
Lemma Engine_init_slots (handle : PyVal) (L Sp A : Z) (e : Engine) (n n' : N)
    (evs : list Event) :
  run h (Engine_init handle L Sp A tt) n = (Normal e, tt, n', evs) ->
  layers e = map Layer_init (py_range L)
  /\ sprites e = map Sprite_init (py_range Sp)
  /\ animations e = map Animation_init (py_range A).
Proof.
  unfold Engine_init. cbn.
  destruct (h TLN_GetVersion [] n) as [[rep|x] n0]; cbn; [|discriminate].
  destruct (ret rep); cbn; try discriminate.
  destruct (z <? req_version); cbn; now intros [= <- <- <-].
Qed.

(** A successful [Engine.create] went through [Engine.__init__]. *)
Lemma Engine_create_inv (W H L Sp A : Z) (e : Engine) (n n' : N) (evs : list Event) :
  run h (Engine_create W H L Sp A tt) n = (Normal (Some e), tt, n', evs) ->
  layers e = map Layer_init (py_range L)
  /\ sprites e = map Sprite_init (py_range Sp)
  /\ animations e = map Animation_init (py_range A).
Proof.
  unfold Engine_create. cbn.
  destruct (h TLN_Init _ n) as [[rep|x] n0]; cbn; [|discriminate].
  assert (Hinit : forall hd,
    (let '(a, n2, evs0) :=
       run h (prog_bind (Engine_init hd L Sp A tt)
                (fun pat : Res Engine * unit =>
                   match pat with
                   | (Normal a, s') => mret (Some a) s'
                   | (Raised x, s') => Done (Raised x, s')
                   end)) n0 in
     (a, n2, Called TLN_Init [PyInt W; PyInt H; PyInt L; PyInt Sp; PyInt A]
               (Normal rep) :: evs0))
    = (Normal (Some e), tt, n', evs) ->
    layers e = map Layer_init (py_range L)
    /\ sprites e = map Sprite_init (py_range Sp)
    /\ animations e = map Animation_init (py_range A)).
  { intros hd. rewrite run_prog_bind.
    destruct (run h (Engine_init hd L Sp A tt) n0) as [[[[e0|x0] []] n1] evs1] eqn:He;
      cbn; [|discriminate].
    intros [= <- <- <-]. exact (Engine_init_slots _ _ _ _ _ _ _ _ He). }
  destruct (ret rep) eqn:Hret; try exact (Hinit _).
  intros Hrun.
  match type of Hrun with
  | context [run h ?p ?m] =>
      destruct (run h p m) as [[[[?|?] ?] ?] ?] eqn:Hr; try discriminate;
      exfalso; exact (raise_default_no_return _ _ _ _ _ _ _ Hr)
  end.
Qed.

(** [Engine.create] does return an engine when the native library hands
    out a context and tells its version. *)
Lemma Engine_create_succeeds (W H L Sp A hd ver : Z) (w1 w2 : option PyVal)
    (n n0 n1 : N) :
  h TLN_Init [PyInt W; PyInt H; PyInt L; PyInt Sp; PyInt A] n
  = (Normal (mkReply (PyInt hd) w1), n0) ->
  h TLN_GetVersion [] n0 = (Normal (mkReply (PyInt ver) w2), n1) ->
  exists e evs, run h (Engine_create W H L Sp A tt) n = (Normal (Some e), tt, n1, evs).
Proof.
  intros H0 H1. unfold Engine_create, Engine_init. cbn. rewrite H0. cbn.
  rewrite H1. cbn. destruct (ver <? req_version); cbn; eauto.
Qed.

End EngineCreate.

(** C8: for non-negative [width], [height], [L], [S] and [A], the engine a
    successful [Engine.create] returns has exactly [L] layers, [S] sprites
    and [A] animations, the one at position [i] carrying the index [i]. *)
Theorem Engine_create_slots {N : Type}
    (h : NativeFn -> list PyVal -> N -> Res Reply * N)
    (width height L Sp A : Z) (e : Engine) (n n' : N) (evs : list Event) :
  0 <= width -> 0 <= height -> 0 <= L -> 0 <= Sp -> 0 <= A ->
  run h (Engine_create width height L Sp A tt) n = (Normal (Some e), tt, n', evs) ->
  (length (layers e) = Z.to_nat L
   /\ forall i, 0 <= i < L -> layer_index <$> (layers e !! Z.to_nat i) = Some i)
  /\ (length (sprites e) = Z.to_nat Sp
      /\ forall i, 0 <= i < Sp -> sprite_index <$> (sprites e !! Z.to_nat i) = Some i)
  /\ (length (animations e) = Z.to_nat A
      /\ forall i, 0 <= i < A ->
           animation_index <$> (animations e !! Z.to_nat i) = Some i).
Proof.
  intros _ _ HL HS HA Hrun.
  destruct (Engine_create_inv h _ _ _ _ _ _ _ _ _ Hrun) as (-> & -> & ->).
  repeat split.
  - now rewrite length_map, py_range_length.
  - intros i Hi. now rewrite list_lookup_fmap, py_range_lookup.
  - now rewrite length_map, py_range_length.
  - intros i Hi. now rewrite list_lookup_fmap, py_range_lookup.
  - now rewrite length_map, py_range_length.
  - intros i Hi. now rewrite list_lookup_fmap, py_range_lookup.
Qed.

Lemma Engine_create_slots_witness :
  (length (layers sample_engine) = Z.to_nat 2
   /\ forall i, 0 <= i < 2 ->
        layer_index <$> (layers sample_engine !! Z.to_nat i) = Some i)
  /\ (length (sprites sample_engine) = Z.to_nat 0
      /\ forall i, 0 <= i < 0 ->
           sprite_index <$> (sprites sample_engine !! Z.to_nat i) = Some i)
  /\ (length (animations sample_engine) = Z.to_nat 20
      /\ forall i, 0 <= i < 20 ->
           animation_index <$> (animations sample_engine !! Z.to_nat i) = Some i).
Proof.
  apply (Engine_create_slots scripted 400 240 2 0 20 sample_engine
           [reply (PyInt 4096); reply (PyInt 133888)] []
           [Called TLN_Init [PyInt 400; PyInt 240; PyInt 2; PyInt 0; PyInt 20]
              (reply (PyInt 4096));
            Called TLN_GetVersion [] (reply (PyInt 133888))]);
    [lia|lia|lia|lia|lia|reflexivity].
Defined.

(** An older library makes [Engine.__init__] print its warning; a null
    context makes [Engine.create] raise. *)
Example Engine_create_old_library :
  run scripted (Engine_create 400 240 1 0 0 tt) [reply (PyInt 4096); reply (PyInt 133632)]
  = (Normal (Some {| engine_as_parameter := PyInt 4096;
                     layers := [Layer_init 0]; sprites := []; animations := [];
                     version := PyInt 133632;
                     cb_raster_func := PyNone; cb_frame_func := PyNone;
                     cb_blend_func := PyNone |}), tt, [],
     [Called TLN_Init [PyInt 400; PyInt 240; PyInt 1; PyInt 0; PyInt 0]
        (reply (PyInt 4096));
      Called TLN_GetVersion [] (reply (PyInt 133632));
      Printed "WARNING: Library version is %d.%d.%d, expected at least %d.%d.%d!"
        [PyInt 2; PyInt 10; PyInt 0; PyInt 2; PyInt 11; PyInt 0]]).
Proof. reflexivity. Qed.

Example Engine_create_no_context :
  outcome scripted (Engine_create 400 240 1 0 0 tt)
    [reply PyNone; reply (PyInt 1); reply (PyBytes "Not enough memory")]
  = Raised (TilengineException "Not enough memory").
Proof. reflexivity. Qed.

(** ** Tilemap cells *)

Lemma c_int_small (z : Z) : - 2 ^ 31 <= z < 2 ^ 31 -> c_int z = z.
Proof.
  intros Hz. unfold c_int.
  rewrite Z.mod_small by lia. lia.
Qed.

Section TilemapCells.
Import TilemapStore.

(** An in-range cell has a position inside the list of cells. *)
Lemma cell_pos_in_range (g : Grid) (row col : Z) :
  wf_grid g -> 0 <= row < rows g -> 0 <= col < cols g ->
  exists p, cell_pos g (c_int row) (c_int col) = Some p
            /\ (p < length (cells g))%nat.
Proof.
  intros (Hr & Hc & Hlen) Hrow Hcol.
  rewrite !c_int_small by lia.
  exists (Z.to_nat (row * cols g + col)). unfold cell_pos.
  replace ((0 <=? row) && (row <? rows g) && (0 <=? col) && (col <? cols g))
    with true by (symmetry; rewrite !andb_true_iff; repeat split; lia).
  split; [reflexivity|]. nia.
Qed.

(** Writing a cell of a stored tilemap and reading it back, for any tile:
    both calls succeed and the structure receives the tile written. *)
Lemma set_tile_get_tile (s : State) (self : Tilemap) (hd : Z) (g : Grid)
    (row col index flags index0 flags0 : Z) :
  tilemap_as_parameter self = PyInt hd ->
  tilemaps s !! hd = Some g ->
  wf_grid g -> 0 <= row < rows g -> 0 <= col < cols g ->
  let written_state :=
    native_after handler
      (Tilemap_set_tile self (PyInt row) (PyInt col) (Some (PyTile index flags)) tt) s in
  outcome handler
    (Tilemap_set_tile self (PyInt row) (PyInt col) (Some (PyTile index flags)) tt) s
  = Normal tt
  /\ fst (fst (run handler
                 (Tilemap_get_tile self (PyInt row) (PyInt col) (PyTile index0 flags0))
                 written_state))
     = (Normal tt, PyTile index flags).
Proof.
  intros Hself Hg Hwf Hrow Hcol.
  destruct (cell_pos_in_range g row col Hwf Hrow Hcol) as (p & Hp & Hlt).
  unfold native_after, outcome, Tilemap_set_tile, Tilemap_get_tile.
  rewrite Hself. cbn. unfold SetTilemapTile. rewrite Hg, Hp. cbn.
  split; [reflexivity|].
  unfold GetTilemapTile. cbn. rewrite lookup_insert_eq.
  unfold cell_pos in *. cbn in *. rewrite Hp. cbn.
  now rewrite list_lookup_insert_eq by exact Hlt.
Qed.

End TilemapCells.

(** C5: for every stored tilemap and every cell in range, [set_tile] with
    the tile {index = 5, flags = FLIPX} followed by [get_tile] on the same
    cell succeeds and leaves that very pair in the structure read. *)
Theorem Tilemap_set_get_roundtrip (s : TilemapStore.State) (self : Tilemap) (hd : Z)
    (g : TilemapStore.Grid) (row col index0 flags0 : Z) :
  tilemap_as_parameter self = PyInt hd ->
  TilemapStore.tilemaps s !! hd = Some g ->
  TilemapStore.wf_grid g ->
  0 <= row < TilemapStore.rows g -> 0 <= col < TilemapStore.cols g ->
  let set_tile :=
    Tilemap_set_tile self (PyInt row) (PyInt col) (Some (Tile 5 Flags.FLIPX)) tt in
  let get_tile :=
    Tilemap_get_tile self (PyInt row) (PyInt col) (PyTile index0 flags0) in
  outcome TilemapStore.handler set_tile s = Normal tt
  /\ fst (fst (run TilemapStore.handler get_tile
                 (native_after TilemapStore.handler set_tile s)))
     = (Normal tt, PyTile 5 Flags.FLIPX).
Proof.
  intros Hself Hg Hwf Hrow Hcol.
  exact (set_tile_get_tile s self hd g row col 5 Flags.FLIPX index0 flags0
           Hself Hg Hwf Hrow Hcol).
Qed.

Lemma Tilemap_set_get_roundtrip_witness :
  outcome TilemapStore.handler
    (Tilemap_set_tile a_tilemap (PyInt 1) (PyInt 2) (Some (Tile 5 Flags.FLIPX)) tt)
    one_tilemap = Normal tt
  /\ fst (fst (run TilemapStore.handler
                 (Tilemap_get_tile a_tilemap (PyInt 1) (PyInt 2) (PyTile 0 0))
                 (native_after TilemapStore.handler
                    (Tilemap_set_tile a_tilemap (PyInt 1) (PyInt 2)
                       (Some (Tile 5 Flags.FLIPX)) tt) one_tilemap)))
     = (Normal tt, PyTile 5 Flags.FLIPX).
Proof.
  apply (Tilemap_set_get_roundtrip one_tilemap a_tilemap 8192
           (TilemapStore.mkGrid 2 3 (replicate 6 (0, 0))) 1 2 0 0).
  - reflexivity.
  - reflexivity.
  - unfold TilemapStore.wf_grid. cbn. lia.
  - cbn. lia.
  - cbn. lia.
Defined.

(** Outside the grid [set_tile] raises and the store keeps its cells. *)
Example set_tile_out_of_range :
  let '(res, native, _) :=
    run TilemapStore.handler
      (Tilemap_set_tile a_tilemap (PyInt 2) (PyInt 0) (Some (Tile 5 Flags.FLIPX)) tt)
      one_tilemap in
  res = (Raised (TilengineException "Picture or tile index out of range"), tt)
  /\ TilemapStore.tilemaps native = TilemapStore.tilemaps one_tilemap.
Proof. vm_compute. split; reflexivity. Qed.

(** [set_tile(row, col, None)] erases the cell. *)
Example set_tile_none_erases :
  fst (fst (run TilemapStore.handler
              (then_call
                 (then_call
                    (Tilemap_set_tile a_tilemap (PyInt 0) (PyInt 1) (Some (Tile 7 0)))
                    (Tilemap_set_tile a_tilemap (PyInt 0) (PyInt 1) None))
                 (Tilemap_get_tile a_tilemap (PyInt 0) (PyInt 1)) (PyTile 9 9))
              one_tilemap))
  = (Normal tt, PyTile 0 0).
Proof. vm_compute. reflexivity. Qed.

(** ** Sprite z-order *)

Section ZOrder.
Import SpriteCompositor.




End ZOrder.




(** Sprites 2, 0, 3 of a chain 0, 1, 2, 3: the frame composites 2, 0, 3 and
    sprite 1 is no longer reached. *)
Example zorder_example :
  SpriteCompositor.paint_order
    (native_after SpriteCompositor.handler (Sprite_set_next (PyInt 3) (Sprite_init 0))
       (native_after SpriteCompositor.handler
          (Sprite_set_next (PyInt 0) (Sprite_init 2))
          (native_after SpriteCompositor.handler (Sprite_set_first (Sprite_init 2))
             four_sprites)))
  = [2%nat; 0%nat; 3%nat].
Proof. vm_compute. reflexivity. Qed.

(** A link to a sprite outside the array is refused and changes nothing. *)
Example set_next_out_of_range :
  let '(res, native, _) :=
    run SpriteCompositor.handler (Sprite_set_next (PyInt 9) (Sprite_init 0))
      four_sprites in
  res = (Raised (TilengineException "Sprite index out of range"), Sprite_init 0)
  /\ SpriteCompositor.composite_order native = [0%nat; 1%nat; 2%nat; 3%nat].
Proof. vm_compute. split; reflexivity. Qed.

(** ** Raster and frame callbacks *)

Section Callbacks.
Import FrameScheduler.
Context {Scene Line : Type}.
Variable user : nat -> Z -> Scene -> Scene.
Variable composite : Scene -> Z -> Line.

(** The scanlines keep the size and the callbacks, and invoke the raster
    callback on each line in turn. *)
Lemma scanlines_invocations (count : nat) (line : Z) (s : @State Scene Line) :
  let s' := scanlines user composite count line s in
  height s' = height s
  /\ raster_callback s' = raster_callback s
  /\ frame_callback s' = frame_callback s
  /\ invocations s' = invocations s ++ raster_calls (raster_callback s) line count.
Proof.
  revert line s. induction count as [|count IH]; intros line s; cbn.
  - repeat split. unfold raster_calls. destruct (raster_callback s); cbn;
      now rewrite app_nil_r.
  - destruct (IH (line + 1) (scanline_step user composite line s))
      as (Hh & Hr & Hf & Hi).
    assert (Hstep : height (scanline_step user composite line s) = height s
                    /\ raster_callback (scanline_step user composite line s)
                       = raster_callback s
                    /\ frame_callback (scanline_step user composite line s)
                       = frame_callback s
                    /\ invocations (scanline_step user composite line s)
                       = invocations s ++ raster_calls (raster_callback s) line 1).
    { unfold scanline_step, raster_calls. destruct (raster_callback s); cbn.
      - repeat split. now rewrite Z.add_0_r.
      - repeat split. now rewrite app_nil_r. }
    destruct Hstep as (Sh & Sr & Sf & Si).
    rewrite Hh, Hr, Hf, Hi, Sh, Sr, Sf, Si. repeat split.
    rewrite <- app_assoc. f_equal.
    unfold raster_calls. destruct (raster_callback s) as [id|]; [|reflexivity].
    cbn. rewrite Z.add_0_r. f_equal.
    rewrite <- seq_shift, map_map. apply map_ext. intros k. f_equal. lia.
Qed.

(** One frame: the raster callback, if any, on the scanlines 0, 1, ...,
    height - 1 in this order, then the frame callback, if any. *)
Lemma UpdateFrame_invocations (frame : Z) (s : @State Scene Line) :
  invocations (UpdateFrame user composite frame s)
  = invocations s ++ raster_calls (raster_callback s) 0 (height s)
    ++ match frame_callback s with
       | Some id => [Frame id frame]
       | None => []
       end.
Proof.
  unfold UpdateFrame, complete_frame.
  destruct (scanlines_invocations (height (enter_frame s)) 0 (enter_frame s))
    as (_ & _ & Hf & Hi).
  cbn in Hf, Hi. rewrite Hf.
  destruct (frame_callback s) as [id|]; cbn.
  - rewrite Hi. now rewrite <- app_assoc.
  - rewrite Hi. now rewrite app_nil_r.
Qed.

(** A frame advances the animation engine by one tick, whatever the
    number of scanlines. *)
Lemma UpdateFrame_ticks (frame : Z) (s : @State Scene Line) :
  ticks (UpdateFrame user composite frame s) = S (ticks s).
Proof.
  unfold UpdateFrame, complete_frame.
  assert (Hticks : forall count line (t : @State Scene Line),
             ticks (scanlines user composite count line t) = ticks t).
  { induction count as [|count IH]; intros line t; cbn; [reflexivity|].
    rewrite IH. unfold scanline_step. now destruct (raster_callback t). }
  destruct (frame_callback _); cbn; now rewrite Hticks.
Qed.

(** [Engine.set_raster_callback] registers the wrapped function with the
    scheduler and keeps it in [cb_raster_func]; nothing else changes. *)
Lemma set_raster_callback_registers (s : @State Scene Line) (self : Engine)
    (raster : option nat) :
  let h := handler user composite in
  let p := Engine_set_raster_callback raster self in
  outcome h p s = Normal tt
  /\ cb_raster_func (snd (fst (fst (run h p s)))) = video_callback raster
  /\ native_after h p s = set_raster raster s.
Proof. destruct raster; repeat split. Qed.

(** [Engine.set_frame_callback] does the same for the frame callback. *)
Lemma set_frame_callback_registers (s : @State Scene Line) (self : Engine)
    (frame_fn : option nat) :
  let h := handler user composite in
  let p := Engine_set_frame_callback frame_fn self in
  outcome h p s = Normal tt
  /\ cb_frame_func (snd (fst (fst (run h p s)))) = video_callback frame_fn
  /\ native_after h p s = set_frame frame_fn s.
Proof. destruct frame_fn; repeat split. Qed.

(** A frame leaves the resolution and the registered callbacks as they
    were, so that the next frame goes the same way. *)
Lemma UpdateFrame_keeps_callbacks (frame : Z) (s : @State Scene Line) :
  height (UpdateFrame user composite frame s) = height s
  /\ raster_callback (UpdateFrame user composite frame s) = raster_callback s
  /\ frame_callback (UpdateFrame user composite frame s) = frame_callback s.
Proof.
  unfold UpdateFrame, complete_frame.
  destruct (scanlines_invocations (height (enter_frame s)) 0 (enter_frame s))
    as (Hh & Hr & Hf & _).
  cbn in Hh, Hr, Hf.
  set (t := scanlines user composite (height s) 0 (enter_frame s)) in *.
  destruct (frame_callback t) eqn:E; cbn; repeat split; congruence.
Qed.

(** C6: in every frame [update_frame] renders while a raster callback is
    registered, that callback is invoked on the scanlines 0, 1, ...,
    height - 1, once each and in ascending order, height times in all; the
    frame callback, when one is registered, is invoked once, after the last
    scanline; the registrations outlive the frame. *)
Theorem raster_callback_once_per_scanline (s : @State Scene Line) (self : Engine)
    (raster : nat) (num_frame : Z) :
  raster_callback s = Some raster ->
  let h := handler user composite in
  let p := Engine_update_frame (PyInt num_frame) self in
  let rasters := map (Raster raster) (py_range (Z.of_nat (height s))) in
  outcome h p s = Normal tt
  /\ invocations (native_after h p s)
     = invocations s ++ rasters
       ++ match frame_callback s with
          | Some frame_fn => [Frame frame_fn (c_int num_frame)]
          | None => []
          end
  /\ length rasters = height s
  /\ (forall y, 0 <= y < Z.of_nat (height s) ->
        rasters !! Z.to_nat y = Some (Raster raster y))
  /\ raster_callback (native_after h p s) = Some raster
  /\ frame_callback (native_after h p s) = frame_callback s
  /\ height (native_after h p s) = height s.
Proof.
  intros Hraster h p rasters.
  assert (Hafter : native_after h p s = UpdateFrame user composite (c_int num_frame) s)
    by reflexivity.
  destruct (UpdateFrame_keeps_callbacks (c_int num_frame) s) as (Hh & Hr & Hf).
  split; [reflexivity|]. rewrite Hafter. split; [|split; [|split; [|split; [|split]]]].
  - rewrite UpdateFrame_invocations, Hraster. cbn. do 2 f_equal.
    subst rasters. unfold py_range. rewrite Nat2Z.id, map_map. reflexivity.
  - subst rasters. now rewrite length_map, py_range_length, Nat2Z.id.
  - intros y Hy. subst rasters. now rewrite list_lookup_fmap, py_range_lookup.
  - now rewrite Hr.
  - exact Hf.
  - exact Hh.
Qed.

End Callbacks.

Lemma raster_callback_once_per_scanline_witness :
  let h := FrameScheduler.handler counting show_count in
  let registered :=
    native_after h (Engine_set_frame_callback (Some 8%nat) sample_engine)
      (native_after h (Engine_set_raster_callback (Some 7%nat) sample_engine)
         three_lines) in
  let final := native_after h (Engine_update_frame (PyInt 41) sample_engine) registered in
  FrameScheduler.invocations final
  = [FrameScheduler.Raster 7 0; FrameScheduler.Raster 7 1; FrameScheduler.Raster 7 2;
     FrameScheduler.Frame 8 41]
  /\ map (FrameScheduler.Raster 7) (py_range 3) !! 1%nat = Some (FrameScheduler.Raster 7 1).
Proof.
  intros h registered final.
  destruct (raster_callback_once_per_scanline counting show_count registered
              sample_engine 7 41 eq_refl) as (_ & Hinv & _ & Hnth & _).
  specialize (Hnth 1 ltac:(cbn; lia)).
  split; [exact Hinv|exact Hnth].
Defined.

(** A frame of three scanlines on a scene that counts the callbacks it has
    seen: raster callback 7 on lines 0, 1, 2, then frame callback 8; the
    three lines show 1, 2 and 3 callbacks, and one tick has passed. *)
Example three_scanlines :
  let final :=
    native_after (FrameScheduler.handler counting show_count)
      (then_call
         (then_call (Engine_set_raster_callback (Some 7%nat))
            (Engine_set_frame_callback (Some 8%nat)))
         (Engine_update_frame (PyInt 41)) sample_engine) three_lines in
  FrameScheduler.invocations final
  = [FrameScheduler.Raster 7 0; FrameScheduler.Raster 7 1; FrameScheduler.Raster 7 2;
     FrameScheduler.Frame 8 41]
  /\ FrameScheduler.target final = [1%nat; 2%nat; 3%nat]
  /\ FrameScheduler.scene final = 4%nat
  /\ FrameScheduler.ticks final = 1%nat.
Proof. vm_compute. repeat split. Qed.

(** Without a raster callback the frame invokes the frame callback only. *)
Example frame_callback_only :
  FrameScheduler.invocations
    (native_after (FrameScheduler.handler counting show_count)
       (then_call (Engine_set_frame_callback (Some 8%nat))
          (Engine_update_frame (PyInt 41)) sample_engine) three_lines)
  = [FrameScheduler.Frame 8 41].
Proof. vm_compute. reflexivity. Qed.

(** * Further properties of the binding *)

(** ** Layer contents: success and failure *)

Lemma Layer_set_tilemap_exclusive_witness :
  tilemap (snd (fst (fst (run scripted (Layer_set_tilemap (Some a_tilemap) bitmap_layer)
                            [reply (PyBool true); reply (PyInt 512); reply (PyInt 256)])))) 
  = Some a_tilemap
  /\ bitmap (snd (fst (fst (run scripted (Layer_set_tilemap (Some a_tilemap) bitmap_layer)
                            [reply (PyBool true); reply (PyInt 512); reply (PyInt 256)]))))
     = None
  /\ objectlist (snd (fst (fst (run scripted
                            (Layer_set_tilemap (Some a_tilemap) bitmap_layer)
                            [reply (PyBool true); reply (PyInt 512); reply (PyInt 256)]))))
     = None.
Proof.
  eapply (Layer_set_tilemap_exclusive scripted bitmap_layer _ a_tilemap
            [reply (PyBool true); reply (PyInt 512); reply (PyInt 256)]).
  reflexivity.
Defined.

Lemma Layer_set_bitmap_exclusive_witness :
  let final :=
    snd (fst (fst (run scripted (Layer_set_bitmap (Some a_bitmap) (Layer_init 1))
                     [reply (PyBool true); reply (PyInt 320); reply (PyInt 240)]))) in
  tilemap final = None /\ bitmap final = Some a_bitmap /\ objectlist final = None.
Proof.
  eapply (Layer_set_bitmap_exclusive scripted (Layer_init 1) _ a_bitmap
            [reply (PyBool true); reply (PyInt 320); reply (PyInt 240)]).
  reflexivity.
Defined.

Section LayerFailure.
Context {N : Type}.
Variable h : NativeFn -> list PyVal -> N -> Res Reply * N.

Local Arguments _raise_exception : simpl never.

(** The failure branch of the three methods raises and hands back the
    object it was given. *)
Lemma raise_default_keeps_object {S B : Type} (k : M S B) (s : S) (n : N) :
  exists e n' evs,
    run h ((_raise_exception (PyBool false) ;; k) s) n = (Raised e, s, n', evs).
Proof.
  destruct (raise_exception_no_return h (PyBool false) s n eq_refl)
    as (e & n1 & evs1 & He).
  exists e, n1, evs1. exact (run_mbind_raised h _ _ _ _ _ _ _ _ He).
Qed.

(** X3: when the native result of [Layer.setup], [Layer.set_tilemap] or
    [Layer.set_bitmap] is not [True], the call raises and the layer object
    keeps all its attributes. *)
Theorem Layer_content_failure_keeps_layer (self : Layer) (tm : option Tilemap)
    (ts : option Tileset) (bm : option Bitmap) :
  (forall n n0 rep,
      h TLN_SetLayer
        [PyInt (layer_as_parameter self); as_parameter tileset_as_parameter ts;
         as_parameter tilemap_as_parameter tm] n = (Normal rep, n0) ->
      is_True (ret rep) = false ->
      exists e n' evs, run h (Layer_setup tm ts self) n = (Raised e, self, n', evs))
  /\ (forall n n0 rep,
        h TLN_SetLayerTilemap
          [PyInt (layer_as_parameter self); as_parameter tilemap_as_parameter tm] n
        = (Normal rep, n0) ->
        is_True (ret rep) = false ->
        exists e n' evs, run h (Layer_set_tilemap tm self) n = (Raised e, self, n', evs))
  /\ (forall n n0 rep,
        h TLN_SetLayerBitmap
          [PyInt (layer_as_parameter self); as_parameter bitmap_as_parameter bm] n
        = (Normal rep, n0) ->
        is_True (ret rep) = false ->
        exists e n' evs, run h (Layer_set_bitmap bm self) n = (Raised e, self, n', evs)).
Proof.
  split; [|split]; intros n n0 rep Hcall Hfail.
  - unfold Layer_setup. cbn. rewrite Hcall. cbn. rewrite Hfail.
    destruct (raise_default_keeps_object (mret PyNone) self n0) as (e & n1 & evs1 & He).
    exists e, n1. eexists.
    match goal with
    | |- context [run h ?p n0] => change (run h p n0)
        with (run h ((_raise_exception (PyBool false) ;; mret PyNone) self) n0)
    end.
    rewrite He. reflexivity.
  - unfold Layer_set_tilemap. cbn. rewrite Hcall. cbn. rewrite Hfail.
    destruct (raise_default_keeps_object (mret PyNone) self n0) as (e & n1 & evs1 & He).
    exists e, n1. eexists.
    match goal with
    | |- context [run h ?p n0] => change (run h p n0)
        with (run h ((_raise_exception (PyBool false) ;; mret PyNone) self) n0)
    end.
    rewrite He. reflexivity.
  - unfold Layer_set_bitmap. cbn. rewrite Hcall. cbn. rewrite Hfail.
    destruct (raise_default_keeps_object (mret PyNone) self n0) as (e & n1 & evs1 & He).
    exists e, n1. eexists.
    match goal with
    | |- context [run h ?p n0] => change (run h p n0)
        with (run h ((_raise_exception (PyBool false) ;; mret PyNone) self) n0)
    end.
    rewrite He. reflexivity.
Qed.

(** X4: [Layer.setup] with a tileset can raise after it has changed the
    layer: when [TLN_SetLayer] succeeds and attaching the tileset to the
    tilemap fails, the call raises, and the layer already has the new
    size and the new tilemap. *)
Theorem Layer_setup_raises_after_update (self : Layer) (tm : Tilemap) (ts : Tileset)
    (n n0 n1 n2 n3 : N) (rep w hh rep2 : Reply) :
  h TLN_SetLayer
    [PyInt (layer_as_parameter self); tileset_as_parameter ts; tilemap_as_parameter tm] n
  = (Normal rep, n0) ->
  is_True (ret rep) = true ->
  h TLN_GetLayerWidth [PyInt (layer_as_parameter self)] n0 = (Normal w, n1) ->
  h TLN_GetLayerHeight [PyInt (layer_as_parameter self)] n1 = (Normal hh, n2) ->
  h TLN_SetTilemapTileset2 [tilemap_as_parameter tm; tileset_as_parameter ts; PyInt 0] n2
  = (Normal rep2, n3) ->
  is_True (ret rep2) = false ->
  exists e n' evs,
    run h (Layer_setup (Some tm) (Some ts) self) n
    = (Raised e,
       {| layer_index := layer_index self;
          layer_as_parameter := layer_as_parameter self;
          width := ret w; height := ret hh; tilemap := Some tm;
          bitmap := bitmap self; objectlist := objectlist self |}, n', evs).
Proof.
  intros H0 Hok H1 H2 H3 Hfail.
  unfold Layer_setup, Tilemap_set_tileset. cbn. rewrite H0. cbn. rewrite Hok. cbn.
  rewrite H1. cbn. rewrite H2. cbn. rewrite H3. cbn. rewrite run_prog_bind.
  match goal with
  | |- context [run h (_raise_exception ?v ?st) ?m] =>
      destruct (raise_exception_no_return h v st m Hfail) as (e & n4 & evs4 & ->)
  end.
  do 3 eexists. reflexivity.
Qed.

End LayerFailure.

Lemma Layer_content_failure_keeps_layer_witness :
  (exists e n' evs,
      run scripted (Layer_setup (Some a_tilemap) None bitmap_layer)
        [reply (PyBool false); reply (PyInt 7); reply (PyBytes "Invalid Tilemap reference")]
      = (Raised e, bitmap_layer, n', evs))
  /\ (exists e n' evs,
        run scripted (Layer_set_tilemap (Some a_tilemap) bitmap_layer)
          [reply (PyBool false); reply (PyInt 7);
           reply (PyBytes "Invalid Tilemap reference")]
        = (Raised e, bitmap_layer, n', evs))
  /\ (exists e n' evs,
        run scripted (Layer_set_bitmap (Some a_bitmap) bitmap_layer)
          [reply (PyBool false); reply (PyInt 12);
           reply (PyBytes "Invalid Bitmap reference")]
        = (Raised e, bitmap_layer, n', evs)).
Proof.
  destruct (Layer_content_failure_keeps_layer scripted bitmap_layer (Some a_tilemap)
              None (Some a_bitmap)) as (H1 & H2 & H3).
  split; [|split].
  - exact (H1 [reply (PyBool false); reply (PyInt 7);
                reply (PyBytes "Invalid Tilemap reference")] _ _ eq_refl eq_refl).
  - exact (H2 [reply (PyBool false); reply (PyInt 7);
                reply (PyBytes "Invalid Tilemap reference")] _ _ eq_refl eq_refl).
  - exact (H3 [reply (PyBool false); reply (PyInt 12);
                reply (PyBytes "Invalid Bitmap reference")] _ _ eq_refl eq_refl).
Defined.

Lemma Layer_setup_raises_after_update_witness :
  exists e n' evs,
    run scripted (Layer_setup (Some a_tilemap) (Some a_tileset) bitmap_layer)
      [reply (PyBool true); reply (PyInt 512); reply (PyInt 256); reply (PyBool false);
       reply (PyInt 6); reply (PyBytes "Invalid Tileset reference")]
    = (Raised e,
       {| layer_index := 0; layer_as_parameter := 0;
          width := PyInt 512; height := PyInt 256; tilemap := Some a_tilemap;
          bitmap := Some a_bitmap; objectlist := None |}, n', evs).
Proof.
  exact (Layer_setup_raises_after_update scripted bitmap_layer a_tilemap a_tileset
           [reply (PyBool true); reply (PyInt 512); reply (PyInt 256);
            reply (PyBool false); reply (PyInt 6);
            reply (PyBytes "Invalid Tileset reference")]
           _ _ _ _ _ _ _ _ eq_refl eq_refl eq_refl eq_refl eq_refl eq_refl).
Defined.

(** ** Sprites: the spriteset attribute and pictures by name *)

Lemma Sprite_setup_assigns_first_witness :
  exists res n' evs,
    run scripted (Sprite_setup (Some a_spriteset) (PyInt 0) (Sprite_init 5))
      [reply (PyBool false); reply (PyInt 3); reply (PyBytes "Sprite index out of range")]
    = (res, n', evs)
    /\ spriteset (snd res) = Some a_spriteset
    /\ (is_True (PyBool false) = false -> exists e, fst res = Raised e).
Proof.
  exact (Sprite_setup_assigns_first scripted (Sprite_init 5) (Some a_spriteset) (PyInt 0)
           [reply (PyBool false); reply (PyInt 3);
            reply (PyBytes "Sprite index out of range")]
           _ (mkReply (PyBool false) None) eq_refl).
Defined.

Lemma Sprite_set_spriteset_assigns_first_witness :
  exists res n' evs,
    run scripted (Sprite_set_spriteset None (Sprite_init 0))
      [reply (PyBool false); reply (PyInt 8);
       reply (PyBytes "Invalid Spriteset reference")]
    = (res, n', evs)
    /\ spriteset (snd res) = None
    /\ (is_True (PyBool false) = false -> exists e, fst res = Raised e).
Proof.
  exact (Sprite_set_spriteset_assigns_first scripted (Sprite_init 0) None
           [reply (PyBool false); reply (PyInt 8);
            reply (PyBytes "Invalid Spriteset reference")]
           _ (mkReply (PyBool false) None) eq_refl).
Defined.

(** ** [Engine.create] and [Engine.__init__] *)

(** The three parts of a version number give the number back. *)
Lemma version_parts (ver : Z) :
  Z.shiftr ver 16 * 65536 + Z.land (Z.shiftr ver 8) 255 * 256 + Z.land ver 255 = ver
  /\ 0 <= Z.land (Z.shiftr ver 8) 255 < 256
  /\ 0 <= Z.land ver 255 < 256.
Proof.
  change 255 with (Z.ones 8). rewrite !Z.land_ones by lia.
  rewrite !Z.shiftr_div_pow2 by lia.
  change (2 ^ 16) with 65536. change (2 ^ 8) with 256.
  pose proof (Z.mod_pos_bound (ver / 256) 256 ltac:(lia)).
  pose proof (Z.mod_pos_bound ver 256 ltac:(lia)).
  repeat split; try lia.
  pose proof (Z.div_mod ver 256 ltac:(lia)).
  pose proof (Z.div_mod (ver / 256) 256 ltac:(lia)).
  assert (ver / 65536 = ver / 256 / 256) by (rewrite Z.div_div by lia; reflexivity).
  lia.
Qed.

Section EngineMore.
Context {N : Type}.
Variable h : NativeFn -> list PyVal -> N -> Res Reply * N.

Local Arguments _raise_exception : simpl never.

(** X8: [Engine.create] never returns [None]: it returns an engine or
    raises, whatever the native library answers. *)
Theorem Engine_create_never_None (width height L Sp A : Z) (n : N) :
  match outcome h (Engine_create width height L Sp A tt) n with
  | Normal None => False
  | _ => True
  end.
Proof.
  unfold outcome.
  destruct (run h (Engine_create width height L Sp A tt) n)
    as [[[[[e|]|x] []] n'] evs] eqn:Hrun; cbn; try exact I.
  revert Hrun. unfold Engine_create. cbn.
  destruct (h TLN_Init _ n) as [[rep|x] n0]; cbn; [|discriminate].
  assert (Hinit : forall hd,
    (let '(a, n2, evs0) :=
       run h (prog_bind (Engine_init hd L Sp A tt)
                (fun pat : Res Engine * unit =>
                   match pat with
                   | (Normal a, s') => mret (Some a) s'
                   | (Raised x, s') => Done (Raised x, s')
                   end)) n0 in
     (a, n2, Called TLN_Init [PyInt width; PyInt height; PyInt L; PyInt Sp; PyInt A]
               (Normal rep) :: evs0))
    = (Normal None, tt, n', evs) -> False).
  { intros hd. rewrite run_prog_bind.
    destruct (run h (Engine_init hd L Sp A tt) n0) as [[[[e0|x0] []] n1] evs1];
      cbn; discriminate. }
  destruct (ret rep) eqn:Hret; try exact (Hinit _).
  intros Hrun.
  match type of Hrun with
  | context [run h ?p ?m] =>
      destruct (run h p m) as [[[[?|?] ?] ?] ?] eqn:Hr; try discriminate;
      exact (raise_default_no_return h _ _ _ _ _ _ _ Hr)
  end.
Qed.

(** X9: what [Engine.__init__] does with the version: it warns exactly
    when the library is older than 2.11.0, showing the three parts of the
    library version, and builds the engine in either case. *)
Theorem Engine_init_warns_old_library (handle : PyVal) (L Sp A ver : Z)
    (w : option PyVal) (n n0 : N) :
  h TLN_GetVersion [] n = (Normal (mkReply (PyInt ver) w), n0) ->
  exists e major minor bug,
    run h (Engine_init handle L Sp A tt) n
    = (Normal e, tt, n0,
       Called TLN_GetVersion [] (Normal (mkReply (PyInt ver) w))
       :: (if ver <? 133888
           then [Printed
                   "WARNING: Library version is %d.%d.%d, expected at least %d.%d.%d!"
                   [PyInt major; PyInt minor; PyInt bug; PyInt 2; PyInt 11; PyInt 0]]
           else []))
    /\ engine_as_parameter e = handle /\ version e = PyInt ver
    /\ cb_raster_func e = PyNone /\ cb_frame_func e = PyNone
    /\ major * 65536 + minor * 256 + bug = ver
    /\ 0 <= minor < 256 /\ 0 <= bug < 256.
Proof.
  intros Hver. destruct (version_parts ver) as (Hsum & Hminor & Hbug).
  eexists. exists (Z.shiftr ver 16), (Z.land (Z.shiftr ver 8) 255), (Z.land ver 255).
  unfold Engine_init. cbn. rewrite Hver. cbn.
  change req_version with 133888.
  destruct (ver <? 133888); cbn; (split; [reflexivity|]); cbn; repeat split;
    try assumption; lia.
Qed.

End EngineMore.

Lemma Engine_init_warns_old_library_witness :
  exists e major minor bug,
    run scripted (Engine_init (PyInt 4096) 1 0 0 tt) [reply (PyInt 133632)]
    = (Normal e, tt, [],
       [Called TLN_GetVersion [] (reply (PyInt 133632));
        Printed "WARNING: Library version is %d.%d.%d, expected at least %d.%d.%d!"
          [PyInt major; PyInt minor; PyInt bug; PyInt 2; PyInt 11; PyInt 0]])
    /\ engine_as_parameter e = PyInt 4096 /\ version e = PyInt 133632
    /\ cb_raster_func e = PyNone /\ cb_frame_func e = PyNone
    /\ major * 65536 + minor * 256 + bug = 133632
    /\ 0 <= minor < 256 /\ 0 <= bug < 256.
Proof.
  exact (Engine_init_warns_old_library scripted (PyInt 4096) 1 0 0 133632 None
           [reply (PyInt 133632)] [] eq_refl).
Defined.

(** ** Result checks on functions that do not return a [bool] *)

Section ResultTypes.
Context {N : Type}.
Variable h : NativeFn -> list PyVal -> N -> Res Reply * N.

(** A value of a result type other than [c_bool] is never [True]. *)
Lemma conforms_not_True (t : Restype.t) (v : PyVal) :
  t <> Restype.c_bool -> conforms t v = true -> is_True v = false.
Proof. destruct t, v; cbn; congruence. Qed.

(** X10: [Engine.set_world_position] and [Engine.set_sprites_mask_region]
    never return normally once their native function has answered: the
    first is declared to return nothing and the second has no declared
    result type, so the value checked is [None] or an [int], never
    [True]. *)
Theorem world_position_and_mask_region_raise (a b : PyVal) (s : unit) (n n0 : N)
    (rep : Reply) :
  (h TLN_SetWorldPosition [a; b] n = (Normal rep, n0) ->
   conforms (restype TLN_SetWorldPosition) (ret rep) = true ->
   exists e n' evs, run h (Engine_set_world_position a b s) n = (Raised e, s, n', evs))
  /\ (h TLN_SetSpritesMaskRegion [a; b] n = (Normal rep, n0) ->
      conforms (restype TLN_SetSpritesMaskRegion) (ret rep) = true ->
      exists e n' evs,
        run h (Engine_set_sprites_mask_region a b s) n = (Raised e, s, n', evs)).
Proof.
  split; intros Hcall Hconf.
  - assert (Hfail : is_True (ret rep) = false).
    { apply (conforms_not_True (restype TLN_SetWorldPosition)); [|exact Hconf].
      cbn. discriminate. }
    unfold Engine_set_world_position. cbn. rewrite Hcall. cbn.
    destruct (raise_exception_no_return h (ret rep) s n0 Hfail) as (e & n1 & evs1 & ->).
    do 3 eexists. reflexivity.
  - assert (Hfail : is_True (ret rep) = false).
    { apply (conforms_not_True (restype TLN_SetSpritesMaskRegion)); [|exact Hconf].
      cbn. discriminate. }
    unfold Engine_set_sprites_mask_region. cbn. rewrite Hcall. cbn.
    destruct (raise_exception_no_return h (ret rep) s n0 Hfail) as (e & n1 & evs1 & ->).
    do 3 eexists. reflexivity.
Qed.


End ResultTypes.

Lemma world_position_and_mask_region_raise_witness :
  (exists e n' evs,
      run (answering PyNone) (Engine_set_world_position (PyInt 10) (PyInt 0) tt) tt
      = (Raised e, tt, n', evs))
  /\ (exists e n' evs,
        run (answering (PyInt 1))
          (Engine_set_sprites_mask_region (PyInt 0) (PyInt 16) tt) tt
        = (Raised e, tt, n', evs)).
Proof.
  split.
  - exact (proj1 (world_position_and_mask_region_raise (answering PyNone)
                    (PyInt 10) (PyInt 0) tt tt tt (mkReply PyNone None))
             eq_refl eq_refl).
  - exact (proj2 (world_position_and_mask_region_raise (answering (PyInt 1))
                    (PyInt 0) (PyInt 16) tt tt tt (mkReply (PyInt 1) None))
             eq_refl eq_refl).
Defined.


(** A native library that answers [None] to everything makes an
    exception of [None.decode()], not of the binding. *)
Example set_world_position_none :
  outcome (answering PyNone) (Engine_set_world_position (PyInt 10) (PyInt 0) tt) tt
  = Raised AttributeError.
Proof. reflexivity. Qed.

(** ** Palettes handed out by layers and sprites *)

(** X12: the palette [Layer.get_palette] hands out is an owning wrapper
    of the layer's own palette: when that wrapper is dropped, [__del__]
    deletes the native palette of the layer. *)
Theorem Layer_get_palette_is_owner {N : Type}
    (h : NativeFn -> list PyVal -> N -> Res Reply * N) (self : Layer) (address : Z)
    (w : option PyVal) (rep : Reply) (n n0 n1 : N) :
  h TLN_GetLayerPalette [PyInt (layer_as_parameter self)] n
  = (Normal (mkReply (PyInt address) w), n0) ->
  h TLN_DeletePalette [PyInt address] n0 = (Normal rep, n1) ->
  is_True (ret rep) = true ->
  run h (Layer_get_palette self) n
  = (Normal (Some {| palette_as_parameter := PyInt address; palette_owner := true |}),
     self, n0,
     [Called TLN_GetLayerPalette [PyInt (layer_as_parameter self)]
        (Normal (mkReply (PyInt address) w))])
  /\ run h ((found <- Layer_get_palette ;;
             match found with
             | Some palette => Palette_del palette
             | None => mret tt
             end) self) n
     = (Normal tt, self, n1,
        [Called TLN_GetLayerPalette [PyInt (layer_as_parameter self)]
           (Normal (mkReply (PyInt address) w));
         Called TLN_DeletePalette [PyInt address] (Normal rep)]).
Proof.
  intros Hget Hdel Hok. split.
  - unfold Layer_get_palette. cbn. now rewrite Hget.
  - unfold Layer_get_palette, Palette_del. cbn. rewrite Hget. cbn. rewrite Hdel. cbn.
    now rewrite (raise_exception_True h _ _ _ Hok).
Qed.

Lemma Layer_get_palette_is_owner_witness :
  run scripted (Layer_get_palette (Layer_init 0)) [reply (PyInt 4096); reply (PyBool true)]
  = (Normal (Some a_palette), Layer_init 0, [reply (PyBool true)],
     [Called TLN_GetLayerPalette [PyInt 0] (reply (PyInt 4096))])
  /\ run scripted
       ((found <- Layer_get_palette ;;
         match found with
         | Some palette => Palette_del palette
         | None => mret tt
         end) (Layer_init 0)) [reply (PyInt 4096); reply (PyBool true)]
     = (Normal tt, Layer_init 0, [],
        [Called TLN_GetLayerPalette [PyInt 0] (reply (PyInt 4096));
         Called TLN_DeletePalette [PyInt 4096] (reply (PyBool true))]).
Proof.
  exact (Layer_get_palette_is_owner scripted (Layer_init 0) 4096 None
           (mkReply (PyBool true) None)
           [reply (PyInt 4096); reply (PyBool true)] [reply (PyBool true)] []
           eq_refl eq_refl eq_refl).
Defined.

(** A wrapper that does not own its palette lets it be. *)
Example Palette_del_not_owner :
  run scripted (Palette_del (Palette_init (PyInt 4096) false) tt) [reply (PyBool true)]
  = (Normal tt, tt, [reply (PyBool true)], []).
Proof. reflexivity. Qed.

(** ** [Color.fromstring]: what it reads and what it accepts *)

(** X13: [Color.fromstring] reads the characters 1 to 6 only: the first
    character, which need not be ['#'], and whatever follows the sixth
    digit make no difference. *)
Theorem Color_fromstring_reads_six (first c1 c2 c3 c4 c5 c6 : ascii) (rest : string) :
  Color_fromstring
    (String first (String c1 (String c2 (String c3 (String c4 (String c5
       (String c6 rest)))))))
  = Color_fromstring
      (String "#" (String c1 (String c2 (String c3 (String c4 (String c5
         (String c6 EmptyString))))))).
Proof.
  unfold Color_fromstring, slice. cbn.
  destruct rest; reflexivity.
Qed.

Lemma substring_beyond (s : string) (n m : nat) :
  (String.length s <= n)%nat -> String.substring n m s = EmptyString.
Proof.
  revert n. induction s as [|c s IH]; intros n Hlen.
  - destruct n, m; reflexivity.
  - destruct n as [|n]; cbn in *; [lia|]. apply IH. lia.
Qed.

Lemma substring_length_le (s : string) (n m : nat) :
  (String.length (String.substring n m s) <= m)%nat.
Proof.
  revert n m. induction s as [|c s IH]; intros n m.
  - destruct n, m; cbn; lia.
  - destruct n as [|n].
    + destruct m as [|m]; cbn; [lia|]. specialize (IH 0%nat m). lia.
    + cbn. apply IH.
Qed.

(** X14: a string of five characters or fewer has no blue component:
    [Color.fromstring] raises [ValueError]. *)
Theorem Color_fromstring_too_short (s : string) :
  (String.length s <= 5)%nat -> Color_fromstring s = Raised ValueError.
Proof.
  intros Hlen. unfold Color_fromstring.
  assert (Hblue : slice 5 7 s = EmptyString) by (apply substring_beyond; exact Hlen).
  rewrite Hblue.
  destruct (int_of_str 16 (slice 1 3 s)); [|reflexivity].
  destruct (int_of_str 16 (slice 3 5 s)); reflexivity.
Qed.

Lemma Color_fromstring_too_short_witness :
  Color_fromstring "#1c00" = Raised ValueError.
Proof. apply (Color_fromstring_too_short "#1c00"). cbn. lia. Defined.

(** With six characters the blue component is read from one digit. *)
Example fromstring_six_characters :
  Color_fromstring "#1c008" = Normal (mkColor (PyInt 28) (PyInt 0) (PyInt 8)).
Proof. reflexivity. Qed.

Lemma in_all_ascii (a : ascii) : In a all_ascii.
Proof.
  unfold all_ascii. apply in_map_iff. exists (nat_of_ascii a).
  split; [apply ascii_nat_embedding|].
  apply in_seq. pose proof (nat_ascii_bounded a). lia.
Qed.

(** Two characters read in base 16 give a number from -15 to 255. *)
Lemma int_of_str_two_chars (s : string) (z : Z) :
  (String.length s <= 2)%nat -> int_of_str 16 s = Some z -> -15 <= z <= 255.
Proof.
  intros Hlen Hparse.
  assert (Hrange : component_in_range (int_of_str 16 s) = true).
  { destruct s as [|a [|b [|c s]]]; [reflexivity| | |cbn in Hlen; lia].
    - assert (Hall : forallb
                       (fun a => component_in_range
                                   (int_of_str 16 (String a EmptyString)))
                       all_ascii = true) by (vm_compute; reflexivity).
      rewrite forallb_forall in Hall. apply Hall, in_all_ascii.
    - assert (Hall : forallb
                       (fun a => forallb
                          (fun b => component_in_range
                                      (int_of_str 16 (String a (String b EmptyString))))
                          all_ascii) all_ascii = true) by (vm_compute; reflexivity).
      rewrite forallb_forall in Hall. specialize (Hall a (in_all_ascii a)).
      rewrite forallb_forall in Hall. apply Hall, in_all_ascii. }
  rewrite Hparse in Hrange. cbn in Hrange.
  apply andb_true_iff in Hrange. lia.
Qed.

(** X15: whenever [Color.fromstring] returns on an ASCII string, the
    three components are integers between -15 and 255; a sign is accepted
    in a component, so they need not be in 0..255.  (On other strings
    [int] also strips the blanks U+0085 and U+00A0 and reads the decimal
    digits of other scripts, which [int_of_str] does not.) *)
Theorem Color_fromstring_component_range (s : string) (c : Color) :
  isascii s = true ->
  Color_fromstring s = Normal c ->
  exists red green blue,
    c = mkColor (PyInt red) (PyInt green) (PyInt blue)
    /\ -15 <= red <= 255 /\ -15 <= green <= 255 /\ -15 <= blue <= 255.
Proof.
  intros _. unfold Color_fromstring.
  destruct (int_of_str 16 (slice 1 3 s)) as [red|] eqn:Hr; [|discriminate].
  destruct (int_of_str 16 (slice 3 5 s)) as [green|] eqn:Hg; [|discriminate].
  destruct (int_of_str 16 (slice 5 7 s)) as [blue|] eqn:Hb; [|discriminate].
  intros [= <-]. exists red, green, blue. split; [reflexivity|].
  repeat split;
    match goal with
    | |- context [red] => apply (int_of_str_two_chars _ _ (substring_length_le _ _ _) Hr)
    | |- context [green] => apply (int_of_str_two_chars _ _ (substring_length_le _ _ _) Hg)
    | |- context [blue] => apply (int_of_str_two_chars _ _ (substring_length_le _ _ _) Hb)
    end.
Qed.

Lemma Color_fromstring_component_range_witness :
  isascii "#-f fFF" = true
  /\ exists red green blue,
       mkColor (PyInt (-15)) (PyInt 15) (PyInt 255)
       = mkColor (PyInt red) (PyInt green) (PyInt blue)
       /\ -15 <= red <= 255 /\ -15 <= green <= 255 /\ -15 <= blue <= 255.
Proof.
  split; [reflexivity|].
  apply (Color_fromstring_component_range "#-f fFF"); reflexivity.
Defined.

(** ** The window singleton *)

Section Footprint.
Context {N : Type}.
Variable h : NativeFn -> list PyVal -> N -> Res Reply * N.

Lemma prog_all_bind {A B : Type} (P : NativeFn -> Prop) (Q1 : A -> Prop)
    (Q2 : B -> Prop) (p : Prog A) (k : A -> Prog B) :
  prog_all P Q1 p -> (forall a, Q1 a -> prog_all P Q2 (k a)) ->
  prog_all P Q2 (prog_bind p k).
Proof.
  intros Hp Hk. induction p as [a|f args kk IH|fmt args kk IH]; cbn in *.
  - now apply Hk.
  - destruct Hp as [Hf Hp]. split; [exact Hf|]. intros r. now apply IH.
  - now apply IH.
Qed.

Lemma run_prog_all {A : Type} (P : NativeFn -> Prop) (Q : A -> Prop)
    (p : Prog A) (n : N) :
  prog_all P Q p ->
  Q (fst (fst (run h p n))) /\ Forall P (invoked (snd (run h p n))).
Proof.
  revert n. induction p as [a|f args kk IH|fmt args kk IH]; intros n Hp; cbn in *.
  - split; [exact Hp|constructor].
  - destruct Hp as [Hf Hp]. destruct (h f args n) as [r0 n0].
    specialize (IH r0 n0 (Hp r0)).
    destruct (run h (kk r0) n0) as [[a n1] evs]. cbn in *.
    destruct IH as [Hq Hall]. split; [exact Hq|]. now constructor.
  - specialize (IH n Hp). destruct (run h kk n) as [[a n1] evs]. cbn in *.
    exact IH.
Qed.

End Footprint.

(** A call on the window part of the module never binds [_window] to
    [None] and never calls [TLN_CreateWindowThread], provided [_window] is
    not [None] before. *)
Lemma window_call_footprint (c : WindowCall) (st : ModuleState) :
  _window st <> Bound None ->
  prog_all (fun f => f <> TLN_CreateWindowThread)
    (fun out : Res unit * ModuleState => _window (snd out) <> Bound None)
    (window_call c st).
Proof.
  intros Hinv. destruct c as [title overlay flags|overlay flags|self|self num_frame].
  - cbn. split; [discriminate|]. intros [r0|e0]; cbn; [|exact Hinv].
    destruct (_window_created st) eqn:Hc; cbn.
    + destruct (_window st) as [|v] eqn:Hw; cbn; congruence.
    + split; [discriminate|]. intros [r1|e1]; cbn; [|exact Hinv].
      destruct (is_True (ret r1)) eqn:Hok; cbn.
      * split; [discriminate|]. intros [r2|e2]; cbn; [|discriminate].
        split; [discriminate|]. intros [r3|e3]; cbn; discriminate.
      * unfold _raise_exception. rewrite Hok. cbn.
        split; [discriminate|]. intros [r2|e2]; cbn; [|exact Hinv].
        split; [discriminate|]. intros [r3|e3]; cbn; [|exact Hinv].
        destruct (ret r3); cbn; exact Hinv.
  - cbn. destruct (_window st) as [|[ref|]] eqn:Hw; cbn; congruence.
  - cbn. destruct (windows st !! self) as [w|]; cbn; [|exact Hinv].
    destruct (window_num_frame w) as [f|]; cbn; [|exact Hinv].
    split; [discriminate|]. intros [r0|e0]; cbn; [|exact Hinv].
    split; [discriminate|]. intros [r1|e1]; cbn; exact Hinv.
  - cbn. exact Hinv.
Qed.

Lemma session_footprint (calls : list WindowCall) (st : ModuleState) :
  _window st <> Bound None ->
  prog_all (fun f => f <> TLN_CreateWindowThread)
    (fun out : Res unit * ModuleState => _window (snd out) <> Bound None)
    (session calls st).
Proof.
  revert st. induction calls as [|c rest IH]; intros st Hinv; cbn.
  - exact Hinv.
  - unfold mbind, attempt.
    eapply prog_all_bind with
      (Q1 := fun out : Res unit * ModuleState => _window (snd out) <> Bound None).
    + eapply prog_all_bind; [exact (window_call_footprint c st Hinv)|].
      intros [ra s'] Hs'. cbn in *. exact Hs'.
    + intros [[[]|e] s'] Hs'; cbn in *; [now apply IH|exact Hs'].
Qed.

(** X16: in a program that starts with the module as imported and uses
    the window only through [Window.create], [Window.create_threaded],
    [Window.process] and [Window.draw_frame], catching every exception,
    [TLN_CreateWindowThread] is never called, whatever the native library
    answers: [create_threaded] reads [_window] before anything binds it. *)
Theorem create_threaded_never_creates {N : Type}
    (h : NativeFn -> list PyVal -> N -> Res Reply * N)
    (calls : list WindowCall) (n : N) :
  ~ In TLN_CreateWindowThread (invoked (snd (run h (session calls module_loaded) n))).
Proof.
  assert (Hinv : _window module_loaded <> Bound None) by discriminate.
  destruct (run_prog_all h _ _ _ n (session_footprint calls module_loaded Hinv))
    as [_ Hall].
  rewrite Forall_forall in Hall. intros Hin. exact (Hall _ (proj2 (list_elem_of_In _ _) Hin) eq_refl).
Qed.

(** The first [create_threaded] of a program raises [NameError]. *)
Example create_threaded_unbound :
  run (answering (PyBool true)) (Window_create_threaded None (PyInt 0) module_loaded) tt
  = (Raised NameError, module_loaded, tt, []).
Proof. reflexivity. Qed.

Section WindowSingleton.
Context {N : Type}.
Variable h : NativeFn -> list PyVal -> N -> Res Reply * N.

Lemma alter_last {A : Type} (f : A -> A) (l : list A) (x : A) :
  alter f (length l) (l ++ [x]) = l ++ [f x].
Proof. induction l as [|y l IH]; cbn; [reflexivity|]. now f_equal. Qed.


(** X18: a [Window.create] that raises has not set [_window_created]: the
    next call tries again to create the window. *)
Theorem Window_create_failure_retries (st st1 : ModuleState) (title : string)
    (overlay : option string) (flags : PyVal) (e : PyExn) (n n1 : N)
    (evs : list Event) :
  _window_created st = false ->
  run h (Window_create title overlay flags st) n = (Raised e, st1, n1, evs) ->
  _window_created st1 = false
  /\ forall title' overlay' flags' m,
       In TLN_SetWindowTitle
         (invoked (snd (run h (Window_create title' overlay' flags' st1) m)))
       /\ (forall rep m',
             h TLN_SetWindowTitle [PyBytes title'] m = (Normal rep, m') ->
             In TLN_CreateWindow
               (invoked (snd (run h (Window_create title' overlay' flags' st1) m)))).
Proof.
  intros Hc Hrun.
  assert (Hc1 : _window_created st1 = false).
  { revert Hrun. unfold Window_create. cbn.
    destruct (h TLN_SetWindowTitle [PyBytes title] n) as [[r0|e0] n0]; cbn;
      [|now intros [= <- <- <- <-]].
    rewrite Hc. cbn.
    destruct (h TLN_CreateWindow [_encode_string overlay; flags] n0)
      as [[r1|e1] n2]; cbn; [|now intros [= <- <- <- <-]].
    destruct (is_True (ret r1)) eqn:Hok; cbn.
    - destruct (h TLN_GetWindowWidth [] n2) as [[r2|e2] n3]; cbn;
        [|intros [= <- <- <- <-]; exact Hc].
      destruct (h TLN_GetWindowHeight [] n3) as [[r3|e3] n4]; cbn;
        [discriminate|intros [= <- <- <- <-]; exact Hc].
    - destruct (raise_exception_no_return h (ret r1) st n2 Hok)
        as (e' & n3 & evs3 & He).
      rewrite (run_mbind_raised h _ _ _ _ _ _ _ _ He).
      now intros [= <- <- <- <-]. }
  split; [exact Hc1|]. intros title' overlay' flags' m.
  unfold Window_create. cbn.
  destruct (h TLN_SetWindowTitle [PyBytes title'] m) as [[r0|e0] m0] eqn:Ht; cbn.
  - rewrite Hc1. cbn.
    destruct (h TLN_CreateWindow [_encode_string overlay'; flags'] m0)
      as [r1 m1] eqn:Hcw.
    match goal with
    | |- context [run h ?p m1] => destruct (run h p m1) as [[x m2] evs2]
    end.
    cbn. split; [now left|]. intros rep m' _. right. now left.
  - split; [now left|]. intros rep m' [=].
Qed.

(** X19: [Window.process] called [k] times on a window whose frame number
    is [f] draws the frames [f], [f + 1], ..., [f + k - 1] in that order,
    two native calls each time, and leaves the frame number at [f + k],
    whatever the library answers to the calls. *)
Theorem Window_process_counts_frames (k : nat) (self : nat) (f : Z) :
  never_raises h ->
  forall (st : ModuleState) (w : Window) (n : N),
    windows st !! self = Some w ->
    window_num_frame w = Some f ->
    exists st' n' evs w',
      run h (process_times k self st) n = (Normal tt, st', n', evs)
      /\ drawn evs = map (fun i => PyInt (f + Z.of_nat i)) (seq 0 k)
      /\ length evs = (2 * k)%nat
      /\ windows st' !! self = Some w'
      /\ window_num_frame w' = Some (f + Z.of_nat k)
      /\ _window st' = _window st /\ _window_created st' = _window_created st.
Proof.
  intros Hnr. revert f. induction k as [|k IH]; intros f st w n Hw Hf.
  - exists st, n, [], w. cbn. rewrite Z.add_0_r. repeat split; assumption.
  - cbn [process_times].
    destruct (Hnr TLN_DrawFrame [PyInt f] n) as (r0 & n0 & Hdraw).
    destruct (Hnr TLN_ProcessWindow [] n0) as (r1 & n1 & Hproc).
    set (w1 := {| window_cb_sdl_func := window_cb_sdl_func w;
                  window_num_frame := Some (f + 1);
                  window_width := window_width w;
                  window_height := window_height w |}).
    set (st1 := {| _window := _window st; _window_created := _window_created st;
                   windows := <[self := w1]> (windows st) |}).
    assert (Hstep : run h (Window_process self st) n
                    = (Normal (ret r1), st1, n1,
                       [Called TLN_DrawFrame [PyInt f] (Normal r0);
                        Called TLN_ProcessWindow [] (Normal r1)])).
    { unfold Window_process. cbn. rewrite Hw. cbn. rewrite Hf. cbn.
      rewrite Hdraw. cbn. rewrite Hproc. cbn.
      subst st1 w1. do 4 f_equal.
      change (list_alter ?g self (windows st)) with (alter g self (windows st)).
      apply list_eq. intros i. destruct (decide (i = self)) as [->|Hne].
      - rewrite list_lookup_alter_eq, Hw. cbn.
        rewrite list_lookup_insert_eq; [reflexivity|].
        now apply lookup_lt_Some in Hw.
      - rewrite list_lookup_alter_ne, list_lookup_insert_ne by congruence.
        reflexivity. }
    assert (Hw1 : windows st1 !! self = Some w1).
    { subst st1. cbn. apply list_lookup_insert_eq. now apply lookup_lt_Some in Hw. }
    destruct (IH (f + 1) st1 w1 n1 Hw1 eq_refl)
      as (st' & n' & evs & w' & Hrun & Hdrawn & Hlen & Hw' & Hf' & Hwin & Hcr).
    exists st', n', ([Called TLN_DrawFrame [PyInt f] (Normal r0);
                      Called TLN_ProcessWindow [] (Normal r1)] ++ evs), w'.
    split.
    { rewrite (run_mbind_normal h _ _ _ _ _ _ _ _ Hstep). now rewrite Hrun. }
    split.
    { change (drawn ([Called TLN_DrawFrame [PyInt f] (Normal r0);
                      Called TLN_ProcessWindow [] (Normal r1)] ++ evs))
        with (PyInt f :: drawn evs).
      rewrite Hdrawn. cbn [seq map]. rewrite Z.add_0_r. f_equal.
      rewrite <- seq_shift, map_map. apply map_ext. intros i. f_equal. lia. }
    split; [cbn; rewrite Hlen; lia|].
    split; [exact Hw'|].
    split; [rewrite Hf'; f_equal; lia|].
    split; [exact Hwin|exact Hcr].
Qed.

(** X20: a window made by [Window.create_threaded] has no [num_frame]:
    [Window.process] on it raises [AttributeError] before any frame is
    drawn. *)
Theorem threaded_window_has_no_frame (st st1 : ModuleState)
    (overlay : option string) (flags : PyVal) (w : nat) (n n1 m : N)
    (evs : list Event) :
  _window st = Bound None ->
  run h (Window_create_threaded overlay flags st) n = (Normal (Some w), st1, n1, evs) ->
  run h (Window_process w st1) m = (Raised AttributeError, st1, m, []).
Proof.
  intros Hw. unfold Window_create_threaded. cbn. rewrite Hw. cbn.
  destruct (h TLN_CreateWindowThread [_encode_string overlay; flags] n)
    as [[r0|e0] n0]; cbn; [|discriminate].
  destruct (is_True (ret r0)) eqn:Hok; cbn.
  - destruct (h TLN_GetWindowWidth [] n0) as [[r2|e2] n3]; cbn; [|discriminate].
    destruct (h TLN_GetWindowHeight [] n3) as [[r3|e3] n4]; cbn; [|discriminate].
    intros [= <- <- <- <-].
    unfold Window_process. cbn. rewrite !alter_last. cbn.
    rewrite list_lookup_middle by reflexivity. reflexivity.
  - destruct (raise_exception_no_return h (ret r0) st n0 Hok) as (e & n3 & evs3 & He).
    rewrite (run_mbind_raised h _ _ _ _ _ _ _ _ He). discriminate.
Qed.

End WindowSingleton.

Lemma never_raises_answering (v : PyVal) : never_raises (answering v).
Proof. intros f args n. exists (mkReply v None), n. reflexivity. Qed.


Lemma Window_create_failure_retries_witness :
  _window_created module_loaded = false
  /\ forall title' overlay' flags' m,
       In TLN_SetWindowTitle
         (invoked (snd (run scripted
                          (Window_create title' overlay' flags' module_loaded) m)))
       /\ (forall rep m',
             scripted TLN_SetWindowTitle [PyBytes title'] m = (Normal rep, m') ->
             In TLN_CreateWindow
               (invoked (snd (run scripted
                                (Window_create title' overlay' flags' module_loaded) m)))).
Proof.
  exact (Window_create_failure_retries scripted module_loaded module_loaded
           "Tilengine window" None (PyInt 2) (TilengineException "No error")
           [reply (PyInt 0); reply (PyBool false); reply (PyInt 0);
            reply (PyBytes "No error")] []
           [Called TLN_SetWindowTitle [PyBytes "Tilengine window"] (reply (PyInt 0));
            Called TLN_CreateWindow [PyNone; PyInt 2] (reply (PyBool false));
            Called TLN_GetLastError [] (reply (PyInt 0));
            Called TLN_GetErrorString [PyInt 0] (reply (PyBytes "No error"))]
           eq_refl eq_refl).
Defined.

Lemma Window_process_counts_frames_witness :
  exists st' n' evs w',
    run (answering (PyBool true)) (process_times 3 0 window_open) tt
    = (Normal tt, st', n', evs)
    /\ drawn evs = map (fun i => PyInt (0 + Z.of_nat i)) (seq 0 3)
    /\ length evs = (2 * 3)%nat
    /\ windows st' !! 0%nat = Some w'
    /\ window_num_frame w' = Some (0 + Z.of_nat 3)
    /\ _window st' = _window window_open
    /\ _window_created st' = _window_created window_open.
Proof.
  exact (Window_process_counts_frames (answering (PyBool true)) 3 0 0
           (never_raises_answering (PyBool true)) window_open
           (created_window (PyInt 640) (PyInt 480)) tt eq_refl eq_refl).
Defined.

Lemma threaded_window_has_no_frame_witness :
  run scripted
    (Window_process 0
       {| _window := Bound (Some 0%nat); _window_created := false;
          windows := [{| window_cb_sdl_func := PyNone; window_num_frame := None;
                         window_width := Some (PyInt 640);
                         window_height := Some (PyInt 480) |}] |})
    []
  = (Raised AttributeError,
     {| _window := Bound (Some 0%nat); _window_created := false;
        windows := [{| window_cb_sdl_func := PyNone; window_num_frame := None;
                       window_width := Some (PyInt 640);
                       window_height := Some (PyInt 480) |}] |},
     [], []).
Proof.
  exact (threaded_window_has_no_frame scripted window_cleared _ None (PyInt 2) 0
           [reply (PyBool true); reply (PyInt 640); reply (PyInt 480)] [] []
           [Called TLN_CreateWindowThread [PyNone; PyInt 2] (reply (PyBool true));
            Called TLN_GetWindowWidth [] (reply (PyInt 640));
            Called TLN_GetWindowHeight [] (reply (PyInt 480))]
           eq_refl eq_refl).
Defined.

(** ** Sequence packs *)

Section SequencePacks.
Context {N : Type}.
Variable h : NativeFn -> list PyVal -> N -> Res Reply * N.

(** X21: [SequencePack.add_sequence] when the library answers with a
    [bool].  On [True] the dictionary maps the name read from the sequence
    to the sequence, the other names as before, and the call returns; on
    [False] it raises and the pack is unchanged.  The result of reading the
    name is not looked at, and [count] is not updated in either case. *)
Theorem SequencePack_add_sequence_outcome (self : SequencePack)
    (sequence : Sequence) (n n0 n1 : N) (info ok : Reply) :
  h TLN_GetSequenceInfo [sequence_as_parameter sequence; PyBytes ""] n
  = (Normal info, n0) ->
  h TLN_AddSequenceToPack
    [sequencepack_as_parameter self; sequence_as_parameter sequence] n0
  = (Normal ok, n1) ->
  conforms (restype TLN_AddSequenceToPack) (ret ok) = true ->
  exists res self' n' evs,
    run h (SequencePack_add_sequence sequence self) n = (res, self', n', evs)
    /\ sequencepack_count self' = sequencepack_count self
    /\ if is_True (ret ok)
       then res = Normal tt
            /\ sequences self' = <[name_read info := sequence]> (sequences self)
            /\ sequences self' !! name_read info = Some sequence
       else (exists e, res = Raised e) /\ self' = self.
Proof.
  intros Hinfo Hadd Hconf.
  unfold SequencePack_add_sequence, Sequence_get_info, with_local. cbn.
  rewrite Hinfo. cbn.
  destruct (ret ok) as [|b| | | | | |] eqn:Hret; cbn in Hconf; try discriminate.
  unfold name_read.
  destruct (written info) as [[| | | |nm|nm| |]|] eqn:Hw; cbn; rewrite Hadd; cbn;
    rewrite Hret; destruct b; cbn;
    try (do 4 eexists; split; [reflexivity|]; cbn; split; [reflexivity|];
         split; [reflexivity|]; split; [reflexivity|apply lookup_insert_eq]).
  all: destruct (h TLN_GetLastError [] n1) as [[e1|x1] n2]; cbn;
    [destruct (h TLN_GetErrorString [ret e1] n2) as [[e2|x2] n3]; cbn;
     [destruct (ret e2); cbn|]|].
  all: do 4 eexists; split; [reflexivity|]; split; [reflexivity|];
    split; [eauto|reflexivity].
Qed.

(** What the loop of [SequencePack.__init__] keeps when it ends: only
    wrappers that do not own their sequence are added, one name at most
    and two native calls per index. *)
Lemma load_sequences_inv (handle : PyVal) (indices : list Z) :
  forall (d d' : gmap string Sequence) (name name' : string) (n n' : N)
         (evs : list Event),
    run h (load_sequences handle indices (d, name)) n
    = (Normal tt, (d', name'), n', evs) ->
    map_Forall (fun _ s => sequence_owner s = false) d ->
    map_Forall (fun _ s => sequence_owner s = false) d'
    /\ (size d' <= size d + length indices)%nat
    /\ length evs = (2 * length indices)%nat.
Proof.
  induction indices as [|s rest IH]; intros d d' name name' n n' evs.
  - cbn. intros [= <- <- <- <-] Hd. split; [exact Hd|]. split; [lia|reflexivity].
  - cbn [load_sequences]. unfold SequencePack_get_sequence. cbn.
    destruct (h TLN_GetSequence [handle; PyInt s] n) as [[rep|e] n0]; cbn;
      [|discriminate].
    destruct (ret rep) eqn:Hret; cbn.
    1: { destruct (h TLN_GetLastError [] n0) as [[e1|x1] n1]; cbn; [|discriminate].
         destruct (h TLN_GetErrorString [ret e1] n1) as [[e2|x2] n2]; cbn;
           [|discriminate].
         destruct (ret e2); cbn; discriminate. }
    all: unfold with_local, Sequence_get_info; cbn.
    all: match goal with
         | |- context [h TLN_GetSequenceInfo ?args ?m] =>
             destruct (h TLN_GetSequenceInfo args m) as [[info|e] n1]; cbn;
               [|discriminate]
         end.
    all: destruct (written info) as [[| | | |nm|nm| |]|]; cbn.
    all: match goal with
         | |- context [run h (load_sequences ?hd ?l ?st) ?m] =>
             destruct (run h (load_sequences hd l st) m)
               as [[[res [d1 name1]] n2] evs2] eqn:Hrec
         end.
    all: intros [= -> -> -> <- <-] Hd.
    all: apply IH in Hrec; [|apply map_Forall_insert_2; [reflexivity|exact Hd]].
    all: destruct Hrec as (Hown & Hsize & Hlen).
    all: split; [exact Hown|].
    all: split; [|cbn; rewrite Hlen; lia].
    all: match type of Hsize with
         | context [size (<[?k := ?v]> ?d0)] =>
             pose proof (map_size_insert k v d0) as Hins;
             destruct (d0 !! k); cbn in Hins; cbn; lia
         end.
Qed.

(** X22: the pack [SequencePack.__init__] builds, for a library that
    tells a count [c]: the dictionary holds non-owning wrappers only and
    at most [c] names (sequences of the same name share one entry), after
    one native call for the count and two per sequence. *)
Theorem SequencePack_init_dictionary (handle : PyVal) (owner : bool) (c : Z)
    (w : option PyVal) (pack : SequencePack) (n n0 n' : N) (evs : list Event) :
  h TLN_GetSequencePackCount [handle] n = (Normal (mkReply (PyInt c) w), n0) ->
  run h (SequencePack_init handle owner tt) n = (Normal pack, tt, n', evs) ->
  sequencepack_as_parameter pack = handle
  /\ sequencepack_owner pack = owner
  /\ sequencepack_count pack = PyInt c
  /\ (size (sequences pack) <= Z.to_nat c)%nat
  /\ map_Forall (fun _ s => sequence_owner s = false) (sequences pack)
  /\ length evs = (1 + 2 * Z.to_nat c)%nat.
Proof.
  intros Hcount. unfold SequencePack_init. cbn. rewrite Hcount. cbn.
  unfold mbind, with_local. rewrite !run_prog_bind.
  destruct (run h (load_sequences handle (py_range c) (∅, "")) n0)
    as [[[[[]|e] [d1 name1]] n1] evs1] eqn:Hload; cbn; [|discriminate].
  intros [= <- <- <-].
  apply load_sequences_inv in Hload; [|apply map_Forall_empty].
  destruct Hload as (Hown & Hsize & Hlen).
  rewrite py_range_length, map_size_empty in Hsize.
  rewrite py_range_length in Hlen. cbn.
  repeat split; try assumption.
  rewrite !app_nil_r, Hlen. lia.
Qed.

(** X23: the two ways to get a sequence out of a pack differ in
    ownership: the wrapper [find_sequence] returns owns the sequence, so
    dropping it deletes a sequence the pack still holds, while the wrapper
    [get_sequence] returns is dropped without a native call. *)
Theorem find_sequence_is_owner (self_handle index : PyVal) (name : option string)
    (address : Z) (w w' : option PyVal) (rep : Reply) (n n0 n1 : N) :
  h TLN_FindSequence [self_handle; _encode_string name] n
  = (Normal (mkReply (PyInt address) w), n0) ->
  h TLN_DeleteSequence [PyInt address] n0 = (Normal rep, n1) ->
  is_True (ret rep) = true ->
  h TLN_GetSequence [self_handle; index] n
  = (Normal (mkReply (PyInt address) w'), n0) ->
  run h (dropped (SequencePack_find_sequence self_handle name) tt) n
  = (Normal tt, tt, n1,
     [Called TLN_FindSequence [self_handle; _encode_string name]
        (Normal (mkReply (PyInt address) w));
      Called TLN_DeleteSequence [PyInt address] (Normal rep)])
  /\ run h (dropped (SequencePack_get_sequence self_handle index) tt) n
     = (Normal tt, tt, n0,
        [Called TLN_GetSequence [self_handle; index]
           (Normal (mkReply (PyInt address) w'))]).
Proof.
  intros Hfind Hdel Hok Hget. split.
  - unfold dropped, SequencePack_find_sequence. cbn. rewrite Hfind. cbn.
    rewrite Hdel. cbn. unfold _raise_exception. rewrite Hok. reflexivity.
  - unfold dropped, SequencePack_get_sequence. cbn. rewrite Hget. reflexivity.
Qed.

End SequencePacks.

Lemma SequencePack_add_sequence_outcome_witness :
  exists res self' n' evs,
    run scripted (SequencePack_add_sequence a_sequence empty_pack)
      [Normal (mkReply (PyBool true) (Some (PyBytes "walk"))); reply (PyBool true)]
    = (res, self', n', evs)
    /\ sequencepack_count self' = sequencepack_count empty_pack
    /\ res = Normal tt
    /\ sequences self' = <["walk" := a_sequence]> (sequences empty_pack)
    /\ sequences self' !! "walk" = Some a_sequence.
Proof.
  exact (SequencePack_add_sequence_outcome scripted empty_pack a_sequence
           [Normal (mkReply (PyBool true) (Some (PyBytes "walk"))); reply (PyBool true)]
           [reply (PyBool true)] []
           (mkReply (PyBool true) (Some (PyBytes "walk"))) (mkReply (PyBool true) None)
           eq_refl eq_refl eq_refl).
Defined.

Lemma SequencePack_init_dictionary_witness :
  sequencepack_as_parameter
    {| sequencepack_as_parameter := PyInt 24576; sequencepack_owner := true;
       sequencepack_count := PyInt 2;
       sequences := <["walk" := mkSequence (PyInt 200) false]>
                      (<["walk" := mkSequence (PyInt 100) false]> ∅) |}
  = PyInt 24576
  /\ sequencepack_owner
       {| sequencepack_as_parameter := PyInt 24576; sequencepack_owner := true;
          sequencepack_count := PyInt 2;
          sequences := <["walk" := mkSequence (PyInt 200) false]>
                         (<["walk" := mkSequence (PyInt 100) false]> ∅) |}
     = true
  /\ sequencepack_count
       {| sequencepack_as_parameter := PyInt 24576; sequencepack_owner := true;
          sequencepack_count := PyInt 2;
          sequences := <["walk" := mkSequence (PyInt 200) false]>
                         (<["walk" := mkSequence (PyInt 100) false]> ∅) |}
     = PyInt 2
  /\ (size (sequences
              {| sequencepack_as_parameter := PyInt 24576; sequencepack_owner := true;
                 sequencepack_count := PyInt 2;
                 sequences := <["walk" := mkSequence (PyInt 200) false]>
                                (<["walk" := mkSequence (PyInt 100) false]> ∅) |})
      <= Z.to_nat 2)%nat
  /\ map_Forall (fun _ s => sequence_owner s = false)
       (sequences
          {| sequencepack_as_parameter := PyInt 24576; sequencepack_owner := true;
             sequencepack_count := PyInt 2;
             sequences := <["walk" := mkSequence (PyInt 200) false]>
                            (<["walk" := mkSequence (PyInt 100) false]> ∅) |})
  /\ length
       [Called TLN_GetSequencePackCount [PyInt 24576] (reply (PyInt 2));
        Called TLN_GetSequence [PyInt 24576; PyInt 0] (reply (PyInt 100));
        Called TLN_GetSequenceInfo [PyInt 100; PyBytes ""]
          (Normal (mkReply (PyBool true) (Some (PyBytes "walk"))));
        Called TLN_GetSequence [PyInt 24576; PyInt 1] (reply (PyInt 200));
        Called TLN_GetSequenceInfo [PyInt 200; PyBytes "walk"]
          (Normal (mkReply (PyBool true) (Some (PyBytes "walk"))))]
     = (1 + 2 * Z.to_nat 2)%nat.
Proof.
  exact (SequencePack_init_dictionary scripted (PyInt 24576) true 2 None _
           [reply (PyInt 2); reply (PyInt 100);
            Normal (mkReply (PyBool true) (Some (PyBytes "walk")));
            reply (PyInt 200);
            Normal (mkReply (PyBool true) (Some (PyBytes "walk")))]
           [reply (PyInt 100);
            Normal (mkReply (PyBool true) (Some (PyBytes "walk")));
            reply (PyInt 200);
            Normal (mkReply (PyBool true) (Some (PyBytes "walk")))]
           [] _ eq_refl eq_refl).
Defined.

(** Two sequences of the same name leave one entry, the later one. *)
Example same_name_one_entry :
  (<["walk" := mkSequence (PyInt 200) false]>
     (<["walk" := mkSequence (PyInt 100) false]> (∅ : gmap string Sequence)))
  !! "walk" = Some (mkSequence (PyInt 200) false).
Proof. apply lookup_insert_eq. Qed.

Lemma find_sequence_is_owner_witness :
  run scripted (dropped (SequencePack_find_sequence (PyInt 24576) (Some "walk")) tt)
    [reply (PyInt 100); reply (PyBool true)]
  = (Normal tt, tt, [],
     [Called TLN_FindSequence [PyInt 24576; PyBytes "walk"] (reply (PyInt 100));
      Called TLN_DeleteSequence [PyInt 100] (reply (PyBool true))])
  /\ run scripted (dropped (SequencePack_get_sequence (PyInt 24576) (PyInt 0)) tt)
       [reply (PyInt 100); reply (PyBool true)]
     = (Normal tt, tt, [reply (PyBool true)],
        [Called TLN_GetSequence [PyInt 24576; PyInt 0] (reply (PyInt 100))]).
Proof.
  exact (find_sequence_is_owner scripted (PyInt 24576) (PyInt 0) (Some "walk") 100
           None None (mkReply (PyBool true) None)
           [reply (PyInt 100); reply (PyBool true)] [reply (PyBool true)] []
           eq_refl eq_refl eq_refl eq_refl).
Defined.
